(** * neon-mcp-loc: the gateway's authentication gate, session registry,
    streaming endpoint and synchronous invocation pipeline.

  The development embeds the TypeScript entry points of the repository:
  - the streaming (HTTP+SSE) server with [checkAuth] and the
    [activeConnections] registry,
  - the authenticated express server with [authenticateToken] and
    [handleToolExecution],
  - the express entry points without an authentication gate,
  - [parseArgs] and [handleInit] of the configuration module.

  JavaScript strings are [string]; [null]/[undefined] are [None];
  a [Map<string, T>] is a [gmap string T]; objects that are shared by
  reference (transports) live in a store indexed by [nat]. *)

From stdpp Require Import gmap strings list fin_maps pretty.
From Stdlib Require Import ZArith Ascii.

Open Scope string_scope.
Open Scope list_scope.
Set Warnings "-register-all".

(** ** JavaScript primitives used by the gateway *)

Module Js.

(** [s.startsWith(p)] *)
Fixpoint startsWith (p s : string) : bool :=
  match p, s with
  | EmptyString, _ => true
  | String _ _, EmptyString => false
  | String a p', String b s' => if Ascii.eqb a b then startsWith p' s' else false
  end.

(** [s.split(sep)] for a one-character separator: every occurrence of
    the separator ends a field, empty fields are kept, and the result
    always has at least one field. *)
Fixpoint split (sep : ascii) (s : string) : list string :=
  match s with
  | EmptyString => [EmptyString]
  | String c s' =>
      if Ascii.eqb c sep then EmptyString :: split sep s'
      else match split sep s' with
           | [] => [String c EmptyString]
           | f :: fs => String c f :: fs
           end
  end.

(** Truthiness of a [string | null | undefined] value: [!v] is true
    for [null], [undefined] and the empty string. *)
Definition falsy (v : option string) : bool :=
  match v with
  | None => true
  | Some EmptyString => true
  | Some _ => false
  end.

(** [a !== b] on strings. *)
Definition strict_ne (a b : string) : bool := negb (String.eqb a b).

(** JSON-like values: request bodies, handler results, response
    payloads.  Numbers are integers in this embedding. *)
Inductive value : Type :=
| VUndefined
| VNull
| VBool (b : bool)
| VNum (n : Z)
| VStr (s : string)
| VArr (xs : list value)
| VObj (fields : list (string * value)).

(** A thrown value as the error middleware inspects it:
    [err instanceof Error], [err?.status] and [err.message]. *)
Record thrown : Type := Thrown {
  instanceofError : bool;
  status : value;
  message : string
}.

(** What express's [next(error)] makes of the value a handler's promise
    rejected with: a falsy value and the strings 'route' and 'router'
    are no error for it, anything else is passed to the error
    middleware. *)
Inductive rejection : Type :=
| NoError
| Failure (err : thrown).

(** Console output. *)
Inductive console : Type :=
| Log (msg : string)
| Warn (msg : string)
| Error (msg : string).

End Js.

(** ** The bearer-token extraction shared by [checkAuth] and
       [authenticateToken]

    [authHeader && authHeader.startsWith('Bearer ') ? authHeader.split(' ')[1] : null] *)

Definition bearerToken (authHeader : option string) : option string :=
  match authHeader with
  | None => None
  | Some EmptyString => None
  | Some h => if Js.startsWith "Bearer " h then Js.split " " h !! 1%nat else None
  end.

(** A token that is one field of the header: it holds no space. *)
Fixpoint noSpace (s : string) : bool :=
  match s with
  | EmptyString => true
  | String c s' => negb (Ascii.eqb c " ") && noSpace s'
  end.

(** ** The streaming server (HTTP + server-sent events) *)

Module Sse.

(** An incoming request as the handler reads it: [req.method],
    [req.headers.authorization], and the [pathname] and [searchParams]
    of [new URL(req.url, ...)]. *)
Record Request : Type := {
  method : string;
  authorization : option string;
  pathname : string;
  searchParams : list (string * string)
}.

(** [url.searchParams.get(name)]: the first value, or [null]. *)
Fixpoint searchParams_get (name : string) (ps : list (string * string)) : option string :=
  match ps with
  | [] => None
  | (k, v) :: ps' => if String.eqb k name then Some v else searchParams_get name ps'
  end.

(** What the handler and its continuations do, in program order.
    Transports are named by their index in the store of connections.
    [Throws] is an exception that leaves the handler: its promise
    rejects, and nothing of the handler runs after it.  (Whether the
    process outlives a rejected promise is the runtime's choice; the
    tasks of a process that goes on are those of [step] below.) *)
Inductive effect : Type :=
| Console (c : Js.console)
| SetHeader (name value : string)
| WriteHead (status : Z) (contentType : option string)
| End (body : option Js.value)
| Throws (code : string)
| NewTransport (t : nat) (sessionId : string)
| RegistrySet (sessionId : string) (t : nat)
| TransportStart (t : nat)
| McpConnect (t : nat)
| OnClose (t : nat)
| RegistryDelete (sessionId : string)
| TransportClose (t : nat)
| HandlePostMessage (t : nat).

(** Where the continuation of the GET handler of a connection stands. *)
Inductive stage : Type :=
| Starting      (* suspended at [await transport.start()] *)
| Connecting    (* suspended at [await mcpServer.connect(transport)] *)
| Listening     (* the close listener is registered *)
| Failed.       (* the catch block ran *)

(** One streaming connection: the transport object and the request
    that carries it. *)
Record connection : Type := {
  sessionId : string;
  at_stage : stage;
  started : bool;          (* the promise of [transport.start()] resolved *)
  reqClosed : bool;        (* 'close' was emitted on the request *)
  transportClosed : bool   (* [transport.close()] was called *)
}.

Record world : Type := {
  activeConnections : gmap string nat;
  connections : list connection
}.

Definition init : world := {| activeConnections := ∅; connections := [] |}.

Definition MCP_POST_PATH : string := "/mcp-post".

Definition json : option string := Some "application/json".
Definition errorBody (msg : string) : option Js.value :=
  Some (Js.VObj [("error", Js.VStr msg)]).

(** [`${v}`] for a [string | null]. *)
Definition show (v : option string) : string := default "null" v.

Section Gate.
Variable EXPECTED_AUTH_TOKEN : string.

Definition checkAuth (req : Request) : list effect * bool :=
  match bearerToken (authorization req) with
  | None | Some EmptyString =>
      ([Console (Js.Warn "Auth Warning: Missing token")], false)
  | Some token =>
      if Js.strict_ne token EXPECTED_AUTH_TOKEN then
        ([Console (Js.Warn "Auth Warning: Invalid token")], false)
      else ([], true)
  end.

Definition cors : list effect :=
  [ SetHeader "Access-Control-Allow-Origin" "*";
    SetHeader "Access-Control-Allow-Methods" "GET, POST, OPTIONS";
    SetHeader "Access-Control-Allow-Headers" "Content-Type, Authorization" ].

Definition respond (status : Z) (msg : string) : list effect :=
  [ WriteHead status json; End (errorBody msg) ].

(** A transport as its constructor leaves it. *)
Definition fresh (uuid : string) : connection :=
  {| sessionId := uuid; at_stage := Starting; started := false;
     reqClosed := false; transportClosed := false |}.

(** The synchronous prefix of the GET /mcp-sse branch, up to the first
    [await].  [uuid] is the identifier the transport's constructor
    generates; the new transport is stored at the next free index. *)
Definition openSse (w : world) (uuid : string) : world * list effect :=
  let t := length (connections w) in
  let registry := <[uuid := t]> (activeConnections w) in
  ( {| activeConnections := registry;
       connections := connections w ++ [fresh uuid] |},
    [ Console (Js.Log "Client requesting SSE connection...");
      NewTransport t uuid;
      Console (Js.Log ("Generated session ID: " +:+ uuid));
      RegistrySet uuid t;
      Console (Js.Log ("Active connections: " +:+ pretty (size registry)));
      TransportStart t ] ).

(** The POST /mcp-post branch, up to its [await]. *)
Definition postMessage (w : world) (req : Request) : list effect :=
  let sessionId := searchParams_get "sessionId" (searchParams req) in
  Console (Js.Log ("Received POST on " +:+ MCP_POST_PATH +:+ " for session " +:+ show sessionId)) ::
  match sessionId with
  | None | Some EmptyString => respond 400 "Missing sessionId query parameter"
  | Some sid =>
      match activeConnections w !! sid with
      | None =>
          Console (Js.Warn ("Received POST for unknown/disconnected session: " +:+ sid)) ::
          respond 404 "Session not found or inactive"
      | Some t => [ HandlePostMessage t ]
      end
  end.

(** The request handler of [http.createServer], up to its first
    suspension. *)
Definition onRequest (w : world) (req : Request) (uuid : string) : world * list effect :=
  if String.eqb (method req) "OPTIONS" then
    (w, cors ++ [ WriteHead 204 None; End None ])
  else
    let '(warnings, ok) := checkAuth req in
    if negb ok then (w, cors ++ warnings ++ respond 401 "Unauthorized")
    else if String.eqb (pathname req) "/mcp-sse" && String.eqb (method req) "GET" then
      let '(w', effs) := openSse w uuid in (w', cors ++ warnings ++ effs)
    else if String.eqb (pathname req) MCP_POST_PATH && String.eqb (method req) "POST" then
      (w, cors ++ warnings ++ postMessage w req)
    else (w, cors ++ warnings ++ respond 404 "Not Found").

(** The catch block of the GET branch.  It tests [res.writableEnded]
    only: when the head of the response has been sent already (by
    [transport.start()], which sends the headers of the event stream),
    [res.writeHead] throws and the reply is not written. *)
Definition setupFailed (headSent writableEnded : bool) : list effect :=
  Console (Js.Error "Error setting up SSE connection:") ::
  if writableEnded then []
  else if headSent then [ Throws "ERR_HTTP_HEADERS_SENT" ]
  else respond 500 "Failed to establish SSE connection".

Definition set_stage (s : stage) (c : connection) : connection :=
  {| sessionId := sessionId c; at_stage := s; started := started c;
     reqClosed := reqClosed c; transportClosed := transportClosed c |}.

Definition set_started (c : connection) : connection :=
  {| sessionId := sessionId c; at_stage := at_stage c; started := true;
     reqClosed := reqClosed c; transportClosed := transportClosed c |}.

Definition set_reqClosed (c : connection) : connection :=
  {| sessionId := sessionId c; at_stage := at_stage c; started := started c;
     reqClosed := true; transportClosed := transportClosed c |}.

Definition set_transportClosed (c : connection) : connection :=
  {| sessionId := sessionId c; at_stage := at_stage c; started := started c;
     reqClosed := reqClosed c; transportClosed := true |}.

Definition update (t : nat) (f : connection -> connection) (w : world) : world :=
  {| activeConnections := activeConnections w;
     connections := alter f t (connections w) |}.

(** The continuation after [await transport.start()]: on success the
    handler calls [mcpServer.connect(transport)] and suspends again. *)
Definition afterStart (w : world) (t : nat) (failure : option Js.thrown)
    (writableEnded : bool) : world * list effect :=
  match connections w !! t with
  | Some c =>
      match at_stage c, failure with
      | Starting, None =>
          (update t (fun c => set_stage Connecting (set_started c)) w, [ McpConnect t ])
      | Starting, Some _ =>
          (update t (set_stage Failed) w, setupFailed (started c) writableEnded)
      | _, _ => (w, [])
      end
  | None => (w, [])
  end.

(** The continuation after [await mcpServer.connect(transport)]: on
    success the close listener is registered on the request. *)
Definition afterConnect (w : world) (t : nat) (failure : option Js.thrown)
    (writableEnded : bool) : world * list effect :=
  match connections w !! t with
  | Some c =>
      match at_stage c, failure with
      | Connecting, None =>
          (update t (set_stage Listening) w,
           [ Console (Js.Log ("MCP Server connected to transport for session " +:+ sessionId c));
             OnClose t ])
      | Connecting, Some _ =>
          (update t (set_stage Failed) w, setupFailed (started c) writableEnded)
      | _, _ => (w, [])
      end
  | None => (w, [])
  end.

(** The listener of [req.on('close', ...)]. *)
Definition closeListener (w : world) (t : nat) (c : connection) : world * list effect :=
  let registry := delete (sessionId c) (activeConnections w) in
  ( {| activeConnections := registry;
       connections := alter set_transportClosed t (connections w) |},
    [ Console (Js.Log ("Client disconnected for session " +:+ sessionId c +:+ ". Cleaning up."));
      RegistryDelete (sessionId c);
      TransportClose t;
      Console (Js.Log ("Active connections after close: " +:+ pretty (size registry))) ] ).

(** The runtime emits 'close' on a request once; only listeners that are
    registered at that moment run. *)
Definition emitClose (w : world) (t : nat) : world * list effect :=
  match connections w !! t with
  | Some c =>
      if reqClosed c then (w, [])
      else
        let w' := update t set_reqClosed w in
        match at_stage c with
        | Listening => closeListener w' t c
        | _ => (w', [])
        end
  | None => (w, [])
  end.

(** The continuation after [await transport.handlePostMessage(req, res)]. *)
Definition afterPost (sessionId : string) (failure : option Js.thrown)
    (writableEnded : bool) : list effect :=
  match failure with
  | None => [ Console (Js.Log ("Handled POST message for session " +:+ sessionId)) ]
  | Some _ =>
      Console (Js.Error ("Error handling POST message for session " +:+ sessionId +:+ ":")) ::
      if writableEnded then [] else respond 500 "Failed to process message"
  end.

(** The tasks the event loop runs, one at a time. *)
Inductive event : Type :=
| Incoming (req : Request) (uuid : string)
| StartSettled (t : nat) (failure : option Js.thrown) (writableEnded : bool)
| ConnectSettled (t : nat) (failure : option Js.thrown) (writableEnded : bool)
| ReqClose (t : nat)
| PostSettled (sessionId : string) (failure : option Js.thrown) (writableEnded : bool).

Definition step (w : world) (e : event) : world * list effect :=
  match e with
  | Incoming req uuid => onRequest w req uuid
  | StartSettled t failure we => afterStart w t failure we
  | ConnectSettled t failure we => afterConnect w t failure we
  | ReqClose t => emitClose w t
  | PostSettled sid failure we => (w, afterPost sid failure we)
  end.

Fixpoint run (w : world) (es : list event) : world * list effect :=
  match es with
  | [] => (w, [])
  | e :: es' =>
      let '(w1, out1) := step w e in
      let '(w2, out2) := run w1 es' in
      (w2, out1 ++ out2)
  end.

End Gate.

(** The status of the response a trace of effects writes, if any. *)
Fixpoint statusOf (effs : list effect) : option Z :=
  match effs with
  | [] => None
  | WriteHead status _ :: _ => Some status
  | _ :: effs' => statusOf effs'
  end.

Fixpoint bodyOf (effs : list effect) : option Js.value :=
  match effs with
  | [] => None
  | End body :: _ => body
  | _ :: effs' => bodyOf effs'
  end.

(** How many times a trace removes an identifier from the registry. *)
Fixpoint deletions (sid : string) (effs : list effect) : nat :=
  match effs with
  | [] => 0
  | RegistryDelete sid' :: effs' =>
      (if String.eqb sid' sid then 1 else 0) + deletions sid effs'
  | _ :: effs' => deletions sid effs'
  end.

(** Whether the handler takes the GET /mcp-sse branch on a request, that
    is, whether a transport is constructed for it. *)
Definition opensSession (secret : string) (req : Request) : bool :=
  negb (String.eqb (method req) "OPTIONS") && snd (checkAuth secret req)
  && String.eqb (pathname req) "/mcp-sse" && String.eqb (method req) "GET".

(** The identifiers the transports' constructors generate along a list
    of events. *)
Fixpoint issued (secret : string) (es : list event) : list string :=
  match es with
  | [] => []
  | Incoming req uuid :: es' =>
      if opensSession secret req then uuid :: issued secret es' else issued secret es'
  | _ :: es' => issued secret es'
  end.



(** The same request with another Authorization header. *)
Definition withCredential (auth : option string) (req : Request) : Request :=
  {| method := method req; authorization := auth;
     pathname := pathname req; searchParams := searchParams req |}.

(** Every registry entry names a stored transport that carries the
    entry's key as its session identifier. *)
Definition registryConsistent (w : world) : Prop :=
  forall (sid : string) (t : nat),
    activeConnections w !! sid = Some t ->
    exists c, connections w !! t = Some c /\ sessionId c = sid.

(** A connection whose close listener can no longer run: its setup
    failed, or its request emitted 'close' already. *)
Definition unclosable (c : connection) : bool :=
  match at_stage c with
  | Failed => true
  | _ => reqClosed c
  end.

(** No connection with this identifier can still run a close listener. *)
Definition stuck (sid : string) (w : world) : Prop :=
  forall (t : nat) (c : connection),
    connections w !! t = Some c -> sessionId c = sid -> unclosable c = true.

(** No stored connection carries this identifier. *)
Definition unused (sid : string) (w : world) : Prop :=
  forall (t : nat) (c : connection),
    connections w !! t = Some c -> sessionId c <> sid.

End Sse.

(** ** The schema validator's error report

    The tools' input schemas (zod schemas, declared outside the entry
    points) are used through [safeParse] and, on failure, through
    [error.format()]. *)

Module Zod.

(** One violation: which field ([path], from the root of the input) and
    why ([message]).  For an issue of a union, of a function's arguments
    or of its return type, [inner] holds the issues of the errors nested
    in it, in order. *)
Inductive issue : Type :=
| Issue (code : string) (path : list string) (message : string) (inner : list issue).

Definition code (i : issue) : string := match i with Issue c _ _ _ => c end.
Definition path (i : issue) : list string := match i with Issue _ p _ _ => p end.
Definition message (i : issue) : string := match i with Issue _ _ m _ => m end.
Definition inner (i : issue) : list issue := match i with Issue _ _ _ js => js end.

(** [ZodError]: the list of issues. *)
Definition error : Type := list issue.

(** The nested report [error.format()] builds: every node has its own
    [_errors] list and one child per field name on some issue's path. *)
Inductive formatted : Type :=
| Node (_errors : list string) (fields : list (string * formatted)).

Definition empty : formatted := Node [] [].

Definition errorsOf (n : formatted) : list string :=
  match n with Node es _ => es end.

Definition fieldsOf (n : formatted) : list (string * formatted) :=
  match n with Node _ fs => fs end.

Fixpoint assoc (k : string) (fs : list (string * formatted)) : option formatted :=
  match fs with
  | [] => None
  | (k', v) :: fs' => if String.eqb k' k then Some v else assoc k fs'
  end.

Fixpoint assoc_set (k : string) (v : formatted) (fs : list (string * formatted))
    : list (string * formatted) :=
  match fs with
  | [] => [(k, v)]
  | (k', v') :: fs' =>
      if String.eqb k' k then (k, v) :: fs' else (k', v') :: assoc_set k v fs'
  end.

(** [curr[el]] and [curr[el] = v] *)
Definition field (el : string) (n : formatted) : option formatted := assoc el (fieldsOf n).

Definition set_field (el : string) (v : formatted) (n : formatted) : formatted :=
  Node (errorsOf n) (assoc_set el v (fieldsOf n)).

(** [curr._errors.push(msg)] *)
Definition push (msg : string) (n : formatted) : formatted :=
  Node (errorsOf n ++ [msg]) (fieldsOf n).

(** Modelled from the spec: the validator's [format] (called by
    [handleToolExecution]; it belongs to the schema library) builds
    a "field-path-indexed list of violations", "mirroring whatever the
    schema validator reports".  For one issue the walk goes down the
    path, creates [{ _errors: [] }] where a node is missing and pushes
    the message at the last element (at the root for an empty path). *)
Fixpoint add (p : list string) (msg : string) (n : formatted) : formatted :=
  match p with
  | [] => push msg n
  | el :: rest => set_field el (add rest msg (default empty (field el n))) n
  end.

(** Modelled from the spec: the report is "mirroring whatever the
    schema validator reports"; for the issues that stand for nested
    errors (of a union, of a function's arguments or return type) the
    validator reports what is nested in them, not their own message. *)
Definition nests (c : string) : bool :=
  String.eqb c "invalid_union" || String.eqb c "invalid_return_type"
  || String.eqb c "invalid_arguments".

(** Modelled from the spec: one issue added to the report, a nested one
    through the issues nested in it, in order. *)
Fixpoint process (i : issue) (acc : formatted) : formatted :=
  match i with
  | Issue c p m js =>
      if nests c then fold_left (fun acc j => process j acc) js acc
      else add p m acc
  end.

(** Modelled from the spec: [error.format()], the report of all the
    issues, added in order to an empty root. *)
Definition format (e : error) : formatted :=
  fold_left (fun acc i => process i acc) e empty.







(** The report as the JSON payload of the response. *)
Fixpoint to_value (n : formatted) : Js.value :=
  match n with
  | Node es fs =>
      Js.VObj (("_errors", Js.VArr (map Js.VStr es)) ::
               (fix children (fs : list (string * formatted)) : list (string * Js.value) :=
                  match fs with
                  | [] => []
                  | (k, c) :: fs' => (k, to_value c) :: children fs'
                  end) fs)
  end.




(** A schema: its [safeParse] and its JSON rendering in the tool list. *)
Record schema : Type := {
  safeParse : Js.value -> Js.value + error;
  toJSON : Js.value
}.

End Zod.

(** ** The catalog the entry points import *)

Record ToolDefinition : Type := {
  name : string;
  description : string;
  inputSchema : Zod.schema
}.

(** A handler, by its outcome on validated input: the value its promise
    resolves to, or the value it rejects with. *)
Definition ToolHandler : Type := Js.value -> Js.value + Js.rejection.

(** ** The express entry points *)

Module Express.

(** A request as the middleware chain reads it.  [path] is [req.path]
    cut at the slashes, as the router matches it: a trailing slash does
    not count, the fixed segments of a route are compared without
    regard to letter case, and the segment that binds [:toolName] is
    given as [req.params.toolName] holds it, that is, URL-decoded.
    [body] is what [express.json()] makes of the payload: [req.body],
    or the error it passes to [next]. *)
Record Request : Type := {
  method : string;
  path : list string;
  authorization : option string;
  body : Js.value + Js.thrown;
  now : string
}.

(** A reply: the status code and the value handed to [res.json] or
    [res.send]. *)
Record Response : Type := {
  statusCode : Z;
  payload : Js.value
}.

Inductive effect : Type :=
| Console (c : Js.console)
| Invoke (toolName : string) (params : Js.value).

(** What a middleware or route handler ends with. *)
Inductive result : Type :=
| Respond (r : Response)
| Next
| NextErr (err : Js.thrown).

Definition errorJson (status : Z) (msg : string) : result :=
  Respond {| statusCode := status; payload := Js.VObj [("error", Js.VStr msg)] |}.

(** [req.path] as printed in logs and default replies. *)
Definition showPath (p : list string) : string :=
  match p with
  | [] => "/"
  | _ => String.concat EmptyString (map (fun seg => "/" +:+ seg) p)
  end.

(** [app.get] routes also answer HEAD. *)
Definition isGet (m : string) : bool := String.eqb m "GET" || String.eqb m "HEAD".

(** The router compares the fixed segments of a route without regard
    to the case of the letters A to Z. *)
Definition lowerAscii (c : ascii) : ascii :=
  let n := nat_of_ascii c in
  if (65 <=? n)%nat && (n <=? 90)%nat then ascii_of_nat (n + 32) else c.

Fixpoint lower (s : string) : string :=
  match s with
  | EmptyString => EmptyString
  | String c s' => String (lowerAscii c) (lower s')
  end.

Definition segment (fixed seg : string) : bool := String.eqb (lower seg) fixed.

(** [app.use('/api', ...)] mounts on every path below /api. *)
Definition underApi (p : list string) : bool :=
  match p with
  | seg :: _ => segment "api" seg
  | [] => false
  end.

(** [res.status(n)] followed by [res.json(...)] needs a status code from
    100 to 999; outside that range the call throws. *)
Definition validStatus (n : Z) : bool := (100 <=? n)%Z && (n <=? 999)%Z.

Section Gateway.
Variable EXPECTED_AUTH_TOKEN : string.
Variable version : string.
Variable NEON_TOOLS : list ToolDefinition.
Variable NEON_HANDLERS : string -> option ToolHandler.

Definition authenticateToken (req : Request) : list effect * result :=
  match bearerToken (authorization req) with
  | None | Some EmptyString =>
      ([Console (Js.Warn "Auth Warning: Missing Authorization header or Bearer prefix.")],
       errorJson 401 "Unauthorized: Missing token")
  | Some token =>
      if Js.strict_ne token EXPECTED_AUTH_TOKEN then
        ([Console (Js.Warn "Auth Warning: Invalid token received.")],
         errorJson 403 "Forbidden: Invalid token")
      else ([], Next)
  end.

Definition banner : result :=
  Respond {| statusCode := 200;
             payload := Js.VStr ("MCP Server Neon (v" +:+ version +:+ ") is running. Use API endpoints.") |}.

Definition apiStatus (req : Request) : result :=
  Respond {| statusCode := 200;
             payload := Js.VObj [ ("status", Js.VStr "running");
                                  ("name", Js.VStr "mcp-server-neon");
                                  ("version", Js.VStr version);
                                  ("timestamp", Js.VStr (now req)) ] |}.

Definition apiTools : result :=
  Respond {| statusCode := 200;
             payload := Js.VArr (map (fun tool =>
               Js.VObj [ ("name", Js.VStr (name tool));
                         ("description", Js.VStr (description tool));
                         ("inputSchema", Zod.toJSON (inputSchema tool)) ]) NEON_TOOLS) |}.

Definition handleToolExecution (toolName : string) (params : Js.value)
    : list effect * result :=
  let toolDefinition := find (fun t => String.eqb (name t) toolName) NEON_TOOLS in
  let handler := NEON_HANDLERS toolName in
  match toolDefinition, handler with
  | Some tool, Some handler =>
      match Zod.safeParse (inputSchema tool) params with
      | inr error =>
          ([Console (Js.Error ("Validation error for tool '" +:+ toolName +:+ "':"))],
           Respond {| statusCode := 400;
                      payload := Js.VObj [ ("error", Js.VStr "Invalid input parameters.");
                                           ("details", Zod.to_value (Zod.format error)) ] |})
      | inl validatedParams =>
          let executing :=
            [ Console (Js.Log ("Executing tool '" +:+ toolName +:+ "' with params:"));
              Invoke toolName validatedParams ] in
          match handler validatedParams with
          | inl result =>
              (executing ++ [Console (Js.Log ("Tool '" +:+ toolName +:+ "' executed successfully."))],
               Respond {| statusCode := 200; payload := result |})
          | inr error =>
              (executing ++
               [Console (Js.Error ("Error caught in handleToolExecution for tool '" +:+ toolName +:+ "':"))],
               match error with
               | Js.Failure err => NextErr err
               | Js.NoError => Next
               end)
          end
      end
  | _, _ => ([], errorJson 404 ("Tool '" +:+ toolName +:+ "' not found."))
  end.

(** The framework's reply to an error that no middleware answers: here,
    the exception raised when the error middleware replies with a
    number that is no status code.  The status is 500; the payload
    stands for the framework's own page. *)
Definition frameworkError : Response :=
  {| statusCode := 500; payload := Js.VStr "Internal Server Error" |}.

(** The error-handling middleware registered last.  No handler of these
    entry points passes an error on after it has begun a reply, so
    [res.headersSent] is false when it runs. *)
Definition errorMiddleware (req : Request) (err : Js.thrown) : list effect * Response :=
  let statusCode := match Js.status err with Js.VNum n => n | _ => 500%Z end in
  let message := if Js.instanceofError err then Js.message err else "Internal Server Error" in
  ([Console (Js.Error ("Unhandled Error: " +:+ method req +:+ " " +:+ showPath (path req)))],
   if validStatus statusCode
   then {| statusCode := statusCode; payload := Js.VObj [("error", Js.VStr message)] |}
   else frameworkError).

(** The framework's reply when no route matches. *)
Definition notFound (req : Request) : Response :=
  {| statusCode := 404;
     payload := Js.VStr ("Cannot " +:+ method req +:+ " " +:+ showPath (path req)) |}.

(** The framework's reply when an error reaches it (no error middleware). *)
Definition defaultError (err : Js.thrown) : Response :=
  {| statusCode := match Js.status err with Js.VNum n => n | _ => 500%Z end;
     payload := Js.VStr (Js.message err) |}.

(** Routes of the form [app.METHOD(path, handler)], tried in order. *)
Definition routeStatus (req : Request) : option result :=
  match path req with
  | [a; b] =>
      if isGet (method req) && segment "api" a && segment "status" b
      then Some (apiStatus req) else None
  | _ => None
  end.

Definition routeTools (req : Request) : option result :=
  match path req with
  | [a; b] =>
      if isGet (method req) && segment "api" a && segment "tools" b
      then Some apiTools else None
  | _ => None
  end.

Definition routeExecute (req : Request) (b : Js.value) : option (list effect * result) :=
  match path req with
  | [a; t; toolName; x] =>
      if String.eqb (method req) "POST" && segment "api" a && segment "tools" t
         && segment "execute" x
      then Some (handleToolExecution toolName b) else None
  | _ => None
  end.

Definition routeRoot (req : Request) : option result :=
  match path req with
  | [] => if isGet (method req) then Some banner else None
  | _ => None
  end.

(** How the chain ends: a reply by a handler, the error middleware, or
    the framework's 404. *)
Definition finish (req : Request) (r : list effect * result) : list effect * Response :=
  match r with
  | (effs, Respond resp) => (effs, resp)
  | (effs, Next) => (effs, notFound req)
  | (effs, NextErr err) =>
      let '(effs', resp) := errorMiddleware req err in (effs ++ effs', resp)
  end.

Definition orElse {A} (o : option A) (k : A) : A := default k o.

(** The routes below the gate of the authenticated server. *)
Definition protectedRoutes (req : Request) (b : Js.value) : list effect * result :=
  match routeStatus req with
  | Some r => ([], r)
  | None =>
      match routeTools req with
      | Some r => ([], r)
      | None => orElse (routeExecute req b) ([], Next)
      end
  end.

(** The authenticated server: [express.json()], the banner,
    [app.use('/api', authenticateToken)], the API routes, the error
    middleware. *)
Definition app (req : Request) : list effect * Response :=
  match body req with
  | inr err => errorMiddleware req err
  | inl b =>
      match routeRoot req with
      | Some r => finish req ([], r)
      | None =>
          if underApi (path req) then
            match authenticateToken req with
            | (effs, Next) =>
                let '(effs', r) := protectedRoutes req b in finish req (effs ++ effs', r)
            | rejected => finish req rejected
            end
          else finish req (protectedRoutes req b)
      end
  end.

(** The server of src/index.ts: the same chain without a gate and
    without the tool list. *)
Definition openApp (req : Request) : list effect * Response :=
  match body req with
  | inr err => errorMiddleware req err
  | inl b =>
      match routeRoot req with
      | Some r => finish req ([], r)
      | None =>
          match routeStatus req with
          | Some r => finish req ([], r)
          | None => finish req (orElse (routeExecute req b) ([], Next))
          end
      end
  end.

(** The smallest server: banner and status only, no error middleware. *)
Definition statusApp (req : Request) : Response :=
  match body req with
  | inr err => defaultError err
  | inl _ =>
      match routeRoot req with
      | Some (Respond r) => r
      | _ =>
          match routeStatus req with
          | Some (Respond r) => r
          | _ => notFound req
          end
      end
  end.

End Gateway.

(** The same request with another Authorization header. *)
Definition withAuthorization (auth : option string) (req : Request) : Request :=
  {| method := method req; path := path req; authorization := auth;
     body := body req; now := now req |}.

(** How many times a trace calls a tool handler. *)
Fixpoint invocations (effs : list effect) : nat :=
  match effs with
  | [] => 0
  | Invoke _ _ :: effs' => S (invocations effs')
  | _ :: effs' => invocations effs'
  end.

End Express.

(** ** Startup of the entry points *)

Module Startup.

(** The environment of the process: the variables the entry points read
    and [process.argv]. *)
Record Env : Type := {
  AUTH_TOKEN : option string;
  NEON_API_KEY : option string;
  argv : list string
}.

Record Args : Type := {
  command : string;
  neonApiKey : string;
  executablePath : string
}.

Inductive effect : Type :=
| Console (c : Js.console).

(** How the top level of an entry point goes on: [process.exit(code)];
    an uncaught exception; [await handleInit(...)] with these arguments,
    followed by [process.exit(0)]; the call of [main], which sets the
    server to listen (with the secret its gate compares against, if it
    has a gate); or nothing left to do.  [Listening] says that no
    statement modelled here stopped the start: the registration of the
    resources and the binding of the port are the libraries' and the
    runtime's, and may still fail. *)
Inductive outcome : Type :=
| Exit (code : Z)
| Uncaught (message : string)
| Init (executablePath neonApiKey : string)
| Listening (secret : option string)
| Idle.

(** A word between double quotes. *)
Definition quoted (s : string) : string :=
  String (Ascii.ascii_of_nat 34) s +:+ String (Ascii.ascii_of_nat 34) EmptyString.

(** [parseArgs] of the configuration module; [inl code] stands for
    [process.exit(code)]. *)
Definition parseArgs (env : Env) : list effect * (Z + Args) :=
  let args := argv env in
  let executablePath := args !! 1%nat in
  let command := args !! 2%nat in
  let ret (cmd : string) (neonApiKey : option string) :=
    inr {| command := cmd;
           neonApiKey := default EmptyString neonApiKey;
           executablePath := default EmptyString executablePath |} in
  match command with
  | Some cmd =>
      if String.eqb cmd "start" then
        ((if Js.falsy (NEON_API_KEY env)
          then [Console (Js.Warn "Warning: NEON_API_KEY environment variable is not set. This might be required.")]
          else []) ++
         (if (3 <? length args)%nat
          then [Console (Js.Warn ("Warning: 'start' command received unexpected arguments: "
                                   +:+ String.concat " " (drop 3 args)))]
          else []),
         ret cmd (NEON_API_KEY env))
      else if String.eqb cmd "init" then
        if (length args <? 4)%nat then
          ([Console (Js.Error ("Error: The " +:+ quoted "init" +:+ " command requires the NEON_API_KEY as the next argument."));
            Console (Js.Error "Example: node dist/index.js init YOUR_API_KEY")],
           inl 1%Z)
        else ([], ret cmd (args !! 3%nat))
      else
        ([Console (Js.Error ("Invalid command provided: " +:+ quoted cmd +:+ ". Must be 'init' or 'start'."))],
         inl 1%Z)
  | None =>
      ([Console (Js.Error ("Invalid command provided: " +:+ quoted "undefined" +:+ ". Must be 'init' or 'start'."))],
       inl 1%Z)
  end.

Section Catalog.
Variable NEON_TOOLS : list ToolDefinition.
Variable NEON_HANDLERS : string -> option ToolHandler.

Definition commands : list string := ["init"; "start"].

Definition includes (xs : list string) (x : string) : bool :=
  existsb (String.eqb x) xs.

(** Modelled from the spec: [server.tool(name, ...)] of the protocol
    library, which the registration loop calls for every tool, keeps the
    catalog's names unique: "duplicate names are a startup error",
    construction "fails fast" "if two entries share a name".
    [registered] holds the names registered so far; the result is the
    message of the exception, if the call throws. *)
Definition tool (registered : list string) (name : string) : option string :=
  if includes registered name
  then Some ("Tool " +:+ name +:+ " is already registered")
  else None.

(** [NEON_TOOLS.forEach]: for every tool in order, the handler is looked
    up, a missing handler throws, and the tool is registered with the
    server.  The first exception stops the loop and the startup. *)
Fixpoint registerFrom (registered : list string) (tools : list ToolDefinition)
    : option string :=
  match tools with
  | [] => None
  | t :: tools' =>
      match NEON_HANDLERS (name t) with
      | None => Some ("Handler for tool " +:+ name t +:+ " not found")
      | Some _ =>
          match tool registered (name t) with
          | Some msg => Some msg
          | None => registerFrom (name t :: registered) tools'
          end
      end
  end.

Definition register (tools : list ToolDefinition) : option string :=
  registerFrom [] tools.

(** The top level of the two entry points with a gate (the streaming
    server and the authenticated express server run the same statements
    up to [main]). *)
Definition gatedStartup (env : Env) : list effect * outcome :=
  match AUTH_TOKEN env with
  | None | Some EmptyString =>
      ([Console (Js.Error "FATAL ERROR: Environment variable 'AUTH_TOKEN' is not set.")], Exit 1)
  | Some secret =>
      match parseArgs env with
      | (effs, inl code) => (effs, Exit code)
      | (effs, inr args) =>
          if negb (includes commands (command args)) then
            (effs ++ [Console (Js.Error ("Invalid command: " +:+ command args))], Exit 1)
          else
            let isStart := String.eqb (command args) "start" in
            let key := if isStart then NEON_API_KEY env else Some (neonApiKey args) in
            let warned :=
              effs ++ (if isStart && Js.falsy key
                       then [Console (Js.Warn "Warning: NEON_API_KEY environment variable is not set.")]
                       else []) in
            if String.eqb (command args) "init" then
              (warned, Init (executablePath args) (default EmptyString key))
            else
              match register NEON_TOOLS with
              | Some msg => (warned, Uncaught msg)
              | None => (warned, if isStart then Listening (Some secret) else Idle)
              end
      end
  end.

Definition sseStartup : Env -> list effect * outcome := gatedStartup.
Definition apiStartup : Env -> list effect * outcome := gatedStartup.

(** The top level of the entry points without a gate (src/index.ts and
    the status-only server): no secret is read. *)
Definition openStartup (env : Env) : list effect * outcome :=
  match parseArgs env with
  | (effs, inl code) => (effs, Exit code)
  | (effs, inr args) =>
      if negb (includes commands (command args)) then
        (effs ++ [Console (Js.Error ("Invalid command: " +:+ command args))], Exit 1)
      else if String.eqb (command args) "init" then
        (effs, Init (executablePath args) (neonApiKey args))
      else
        match register NEON_TOOLS with
        | Some msg => (effs, Uncaught msg)
        | None => (effs, Listening None)
        end
  end.

End Catalog.

End Startup.

(** ** Fixtures: a secret, a small catalog and requests *)

Module Fixture.

Definition secret : string := "s3cret".

(** A schema with one required string field. *)
Definition requireString (fld : string) : Zod.schema :=
  {| Zod.safeParse := fun input =>
       match input with
       | Js.VObj fields =>
           match List.find (fun kv => String.eqb (fst kv) fld) fields with
           | Some (_, Js.VStr s) => inl (Js.VObj [(fld, Js.VStr s)])
           | Some (_, Js.VNum _) =>
               inr [ Zod.Issue "invalid_type" [fld] "Expected string, received number" [] ]
           | Some _ => inr [ Zod.Issue "invalid_type" [fld] "Expected string" [] ]
           | None => inr [ Zod.Issue "invalid_type" [fld] "Required" [] ]
           end
       | _ => inr [ Zod.Issue "invalid_type" [] "Expected object" [] ]
       end;
     Zod.toJSON := Js.VObj [(fld, Js.VStr "string")] |}.

Definition run_sql : ToolDefinition :=
  {| name := "run_sql"; description := "Execute a SQL statement";
     inputSchema := requireString "sql" |}.

Definition tools : list ToolDefinition := [run_sql].

(** The upstream call fails with an HTTP error object. *)
Definition upstreamFailure : Js.thrown :=
  {| Js.instanceofError := true; Js.status := Js.VNum 503;
     Js.message := "Request failed with status code 503" |}.

Definition plainFailure : Js.thrown :=
  {| Js.instanceofError := true; Js.status := Js.VUndefined;
     Js.message := "connection refused" |}.

Definition handlers (failure : Js.thrown) (toolName : string) : option ToolHandler :=
  if String.eqb toolName "run_sql" then Some (fun _ => inr (Js.Failure failure)) else None.

Definition execute (auth : option string) (input : Js.value) : Express.Request :=
  {| Express.method := "POST";
     Express.path := ["api"; "tools"; "run_sql"; "execute"];
     Express.authorization := auth;
     Express.body := inl input;
     Express.now := "2025-01-01T00:00:00.000Z" |}.

Definition status (auth : option string) : Express.Request :=
  {| Express.method := "GET";
     Express.path := ["api"; "status"];
     Express.authorization := auth;
     Express.body := inl (Js.VObj []);
     Express.now := "2025-01-01T00:00:00.000Z" |}.

Definition sse (auth : option string) : Sse.Request :=
  {| Sse.method := "GET"; Sse.authorization := auth;
     Sse.pathname := "/mcp-sse"; Sse.searchParams := [] |}.

Definition post (auth : option string) (query : list (string * string)) : Sse.Request :=
  {| Sse.method := "POST"; Sse.authorization := auth;
     Sse.pathname := "/mcp-post"; Sse.searchParams := query |}.

Definition options (auth : option string) : Sse.Request :=
  {| Sse.method := "OPTIONS"; Sse.authorization := auth;
     Sse.pathname := "/mcp-sse"; Sse.searchParams := [] |}.

Definition env (token : option string) : Startup.Env :=
  {| Startup.AUTH_TOKEN := token; Startup.NEON_API_KEY := Some "napi_key";
     Startup.argv := ["node"; "dist/index.js"; "start"] |}.

End Fixture.

(** ** The configuration writer of the [init] command *)

Module Config.

(** Object properties as the spread and the property access see them:
    own properties in order, read by name. *)
Fixpoint lookupField (k : string) (fs : list (string * Js.value)) : option Js.value :=
  match fs with
  | [] => None
  | (k', v) :: fs' => if String.eqb k' k then Some v else lookupField k fs'
  end.

(** [{ ...fs, [k]: v }]: an existing property keeps its place and takes
    the new value, a new one goes last. *)
Fixpoint setField (k : string) (v : Js.value) (fs : list (string * Js.value))
    : list (string * Js.value) :=
  match fs with
  | [] => [(k, v)]
  | (k', v') :: fs' =>
      if String.eqb k' k then (k, v) :: fs' else (k', v') :: setField k v fs'
  end.

Definition truthy (v : Js.value) : bool :=
  match v with
  | Js.VUndefined | Js.VNull => false
  | Js.VBool b => b
  | Js.VNum n => negb (Z.eqb n 0)
  | Js.VStr EmptyString => false
  | Js.VStr _ | Js.VArr _ | Js.VObj _ => true
  end.

(** [v.name], for a name that is neither an index nor a built-in
    property: [None] stands for the TypeError on null and undefined. *)
Definition member (k : string) (v : Js.value) : option Js.value :=
  match v with
  | Js.VUndefined | Js.VNull => None
  | Js.VObj fs => Some (default Js.VUndefined (lookupField k fs))
  | _ => Some Js.VUndefined
  end.

(** [v?.name] *)
Definition optionalMember (k : string) (v : Js.value) : Js.value :=
  default Js.VUndefined (member k v).

(** [name in v], for such a name: [None] stands for the TypeError on a
    value that is not an object. *)
Definition hasIn (k : string) (v : Js.value) : option bool :=
  match v with
  | Js.VObj fs => Some (bool_decide (is_Some (lookupField k fs)))
  | Js.VArr _ => Some false
  | _ => None
  end.

Fixpoint indexed {A} (i : nat) (xs : list A) : list (string * A) :=
  match xs with
  | [] => []
  | x :: xs' => (pretty i, x) :: indexed (S i) xs'
  end.

Fixpoint chars (s : string) : list Js.value :=
  match s with
  | EmptyString => []
  | String c s' => Js.VStr (String c EmptyString) :: chars s'
  end.

(** The properties [{ ...v }] copies. *)
Definition ownProps (v : Js.value) : list (string * Js.value) :=
  match v with
  | Js.VObj fs => fs
  | Js.VArr xs => indexed 0 xs
  | Js.VStr s => indexed 0 (chars s)
  | _ => []
  end.

(** [hay.includes(needle)] *)
Fixpoint includes (needle hay : string) : bool :=
  Js.startsWith needle hay ||
  match hay with
  | EmptyString => false
  | String _ hay' => includes needle hay'
  end.

(** The configuration file as [existsSync] and [JSON.parse] find it:
    [Json v] is a file whose text [JSON.parse] reads as [v]. *)
Inductive content : Type :=
| NoFile
| NotJson
| Json (v : Js.value).

Fixpoint distinct (ks : list string) : bool :=
  match ks with
  | [] => true
  | k :: ks' => negb (existsb (String.eqb k) ks') && distinct ks'
  end.

(** The values [JSON.parse] returns and [JSON.stringify] writes back as
    they are: every number is an integer of at most 2^53 in absolute
    value (a double holds it exactly), no object has a property name
    twice, and [undefined] does not occur. *)
Fixpoint parsed (v : Js.value) : bool :=
  match v with
  | Js.VUndefined => false
  | Js.VNull | Js.VBool _ | Js.VStr _ => true
  | Js.VNum n => (Z.abs n <=? 2 ^ 53)%Z
  | Js.VArr xs => forallb parsed xs
  | Js.VObj fs =>
      distinct (map fst fs) && forallb (fun kv => parsed (snd kv)) fs
  end.

(** The disk: the configuration directory may be missing; a file needs
    its directory. *)
Inductive disk : Type :=
| NoDirectory
| Directory (file : content).

Definition fileOf (d : disk) : content :=
  match d with
  | NoDirectory => NoFile
  | Directory f => f
  end.

Inductive effect : Type :=
| Console (c : Js.console)
| Mkdir
| WriteFile (v : Js.value).

Record result : Type := {
  effects : list effect;
  after : disk;
  threw : option string
}.

Definition MCP_NEON_SERVER : string := "neon".

Section Package.
Variable packageName : string.
Variable claudeConfigPath : string.

Definition neonConfig (executablePath neonApiKey : string) : Js.value :=
  let serverPath :=
    if includes "dist/index.js" executablePath then executablePath else packageName in
  Js.VObj [ ("command", Js.VStr "npx");
            ("args", Js.VArr [ Js.VStr "-y"; Js.VStr serverPath;
                               Js.VStr "start"; Js.VStr neonApiKey ]) ].

(** [handleInit]: what it logs and calls, the disk it leaves, and the
    error it ends with, if any.  The file is kept as the value its JSON
    text stands for. *)
Definition handleInit (d : disk) (executablePath neonApiKey : string) : result :=
  let made :=
    match d with
    | NoDirectory =>
        [ Console (Js.Log "Creating Claude config directory..."); Mkdir ]
    | Directory _ => []
    end in
  let d1 := Directory (fileOf d) in
  let parsed :=
    match fileOf d with
    | NoFile => Some (Js.VObj [("mcpServers", Js.VObj [])])
    | NotJson => None
    | Json v => Some v
    end in
  match parsed with
  | None => {| effects := made; after := d1; threw := Some "SyntaxError" |}
  | Some existingConfig =>
      let servers := optionalMember "mcpServers" existingConfig in
      match hasIn MCP_NEON_SERVER (if truthy servers then servers else Js.VObj []) with
      | None => {| effects := made; after := d1; threw := Some "TypeError" |}
      | Some present =>
          let replacing :=
            if present
            then [ Console (Js.Log "Replacing existing Neon MCP config...") ]
            else [] in
          match member "mcpServers" existingConfig with
          | None =>
              {| effects := made ++ replacing; after := d1; threw := Some "TypeError" |}
          | Some mcpServers =>
              let newConfig :=
                Js.VObj (setField "mcpServers"
                           (Js.VObj (setField MCP_NEON_SERVER
                                       (neonConfig executablePath neonApiKey)
                                       (ownProps mcpServers)))
                           (ownProps existingConfig)) in
              {| effects :=
                   made ++ replacing ++
                   [ WriteFile newConfig;
                     Console (Js.Log ("Config written to: " +:+ claudeConfigPath));
                     Console (Js.Log "The Neon MCP server will start automatically the next time you open Claude.") ];
                 after := Directory (Json newConfig);
                 threw := None |}
          end
      end
  end.

End Package.

(** [v.a.b...]: reading along a path of property names. *)
Fixpoint at_path (p : list string) (v : Js.value) : option Js.value :=
  match p with
  | [] => Some v
  | k :: p' =>
      match v with
      | Js.VObj fs =>
          match lookupField k fs with
          | Some v' => at_path p' v'
          | None => None
          end
      | _ => None
      end
  end.

End Config.

(** ** The [init] command, from the top level to the end of the process *)

Module Entry.

Section Package.
Variable packageName : string.
Variable claudeConfigPath : string.

(** What follows the top level of an entry point: for the [init]
    command, [handleInit] runs on the disk and [process.exit(0)] ends
    the process; nothing catches an exception of [handleInit], so the
    exit is not reached when it throws. *)
Definition conclude (d : Config.disk) (o : Startup.outcome)
    : list Config.effect * Config.disk * Startup.outcome :=
  match o with
  | Startup.Init executablePath neonApiKey =>
      let r := Config.handleInit packageName claudeConfigPath d executablePath neonApiKey in
      (Config.effects r, Config.after r,
       match Config.threw r with
       | None => Startup.Exit 0
       | Some e => Startup.Uncaught e
       end)
  | _ => ([], d, o)
  end.

End Package.

End Entry.

(** * Properties *)

(** ** The authentication gate *)

Section GateFacts.
Variable secret : string.

Lemma split_noSpace (tok : string) :
  noSpace tok = true -> Js.split " " tok = [tok].
Proof.
  induction tok as [|c tok IH]; simpl; [reflexivity|].
  intros H. apply andb_prop in H as [Hc Htok].
  apply negb_true_iff in Hc. rewrite Hc, (IH Htok). reflexivity.
Qed.

(** The field of the header the gate compares: for a token without a
    space it is the token itself. *)
Lemma bearerToken_noSpace (tok : string) :
  noSpace tok = true -> bearerToken (Some ("Bearer " +:+ tok)) = Some tok.
Proof.
  intros H. unfold String.append. cbn. rewrite (split_noSpace tok H). reflexivity.
Qed.

Lemma bearerToken_not_bearer (h : string) :
  Js.startsWith "Bearer " h = false -> bearerToken (Some h) = None.
Proof.
  intros H. unfold bearerToken. rewrite H. destruct h; reflexivity.
Qed.

Lemma strict_ne_false (a b : string) : Js.strict_ne a b = false <-> a = b.
Proof.
  unfold Js.strict_ne. rewrite negb_false_iff. apply String.eqb_eq.
Qed.

Lemma checkAuth_true_iff (req : Sse.Request) :
  snd (Sse.checkAuth secret req) = true <->
  bearerToken (Sse.authorization req) = Some secret /\ secret <> EmptyString.
Proof.
  unfold Sse.checkAuth.
  destruct (bearerToken (Sse.authorization req)) as [[|c tok]|]; simpl.
  - split; [discriminate|]. intros [[= <-] Hne]. congruence.
  - destruct (Js.strict_ne (String c tok) secret) eqn:E; simpl.
    + split; [discriminate|]. intros [[= <-] _].
      unfold Js.strict_ne in E. rewrite String.eqb_refl in E. discriminate.
    + apply strict_ne_false in E. subst secret. split; [|reflexivity].
      intros _. split; [reflexivity|discriminate].
  - split; [discriminate|]. intros [[=] _].
Qed.

Lemma authenticateToken_next_iff (req : Express.Request) :
  snd (Express.authenticateToken secret req) = Express.Next <->
  bearerToken (Express.authorization req) = Some secret /\ secret <> EmptyString.
Proof.
  unfold Express.authenticateToken.
  destruct (bearerToken (Express.authorization req)) as [[|c tok]|]; simpl.
  - split; [discriminate|]. intros [[= <-] Hne]. congruence.
  - destruct (Js.strict_ne (String c tok) secret) eqn:E; simpl.
    + split; [discriminate|]. intros [[= <-] _].
      unfold Js.strict_ne in E. rewrite String.eqb_refl in E. discriminate.
    + apply strict_ne_false in E. subst secret. split; [|reflexivity].
      intros _. split; [reflexivity|discriminate].
  - split; [discriminate|]. intros [[=] _].
Qed.

End GateFacts.

(** C9: a header that does not start with the prefix "Bearer " takes the
    "missing credential" path of the gate, in the streaming server (the
    warning logged is the one for a missing token) and in the express
    server (401, "Unauthorized: Missing token"), never the "invalid
    credential" path. *)
Theorem non_bearer_header_is_missing (secret h : string) :
  Js.startsWith "Bearer " h = false ->
  (forall req : Sse.Request,
      Sse.authorization req = Some h ->
      Sse.checkAuth secret req =
        ([Sse.Console (Js.Warn "Auth Warning: Missing token")], false)) /\
  (forall req : Express.Request,
      Express.authorization req = Some h ->
      Express.authenticateToken secret req =
        ([Express.Console (Js.Warn "Auth Warning: Missing Authorization header or Bearer prefix.")],
         Express.errorJson 401 "Unauthorized: Missing token")).
Proof.
  intros H. split; intros req Hreq.
  - unfold Sse.checkAuth. rewrite Hreq, (bearerToken_not_bearer h H). reflexivity.
  - unfold Express.authenticateToken. rewrite Hreq, (bearerToken_not_bearer h H). reflexivity.
Qed.

Lemma non_bearer_header_is_missing_witness :
  Sse.checkAuth Fixture.secret (Fixture.sse (Some "Basic czNjcmV0")) =
    ([Sse.Console (Js.Warn "Auth Warning: Missing token")], false).
Proof.
  apply (proj1 (non_bearer_header_is_missing Fixture.secret "Basic czNjcmV0" eq_refl)).
  reflexivity.
Defined.

(** C4, as stated, fails: a credential that extends the secret after a
    space is accepted by both gates. *)
Lemma extended_credential_accepted :
  "s3cret extra" <> Fixture.secret /\
  snd (Sse.checkAuth Fixture.secret (Fixture.sse (Some "Bearer s3cret extra"))) = true /\
  snd (Express.authenticateToken Fixture.secret
         (Fixture.execute (Some "Bearer s3cret extra") Js.VNull)) = Express.Next.
Proof. split; [discriminate|]. split; reflexivity. Qed.

(** C4 (amended): the gate accepts a request exactly when the header
    starts with "Bearer " and its field between the first and the second
    space is the configured secret; for a credential without a space
    (partial, longer or case-mismatched tokens included) acceptance holds
    exactly when the credential equals the secret. *)
Theorem gate_accepts_exact_field (secret : string) :
  (forall req : Sse.Request,
      snd (Sse.checkAuth secret req) = true <->
      bearerToken (Sse.authorization req) = Some secret /\ secret <> EmptyString) /\
  (forall req : Express.Request,
      snd (Express.authenticateToken secret req) = Express.Next <->
      bearerToken (Express.authorization req) = Some secret /\ secret <> EmptyString) /\
  (forall tok : string,
      noSpace tok = true -> secret <> EmptyString ->
      (forall req : Sse.Request,
          snd (Sse.checkAuth secret (Sse.withCredential (Some ("Bearer " +:+ tok)) req)) = true
          <-> tok = secret) /\
      (forall req : Express.Request,
          Express.authorization req = Some ("Bearer " +:+ tok) ->
          snd (Express.authenticateToken secret req) = Express.Next <-> tok = secret)).
Proof.
  split; [apply checkAuth_true_iff|]. split; [apply authenticateToken_next_iff|].
  intros tok Htok Hne. split.
  - intros req. rewrite checkAuth_true_iff. simpl Sse.authorization.
    rewrite (bearerToken_noSpace tok Htok). split.
    + intros [[= ->] _]. reflexivity.
    + intros ->. split; [reflexivity|assumption].
  - intros req Hreq. rewrite authenticateToken_next_iff, Hreq.
    rewrite (bearerToken_noSpace tok Htok). split.
    + intros [[= ->] _]. reflexivity.
    + intros ->. split; [reflexivity|assumption].
Qed.

Lemma gate_accepts_exact_field_witness :
  snd (Sse.checkAuth Fixture.secret
         (Sse.withCredential (Some "Bearer s3cret") (Fixture.sse None))) = true /\
  snd (Sse.checkAuth Fixture.secret
         (Sse.withCredential (Some "Bearer S3CRET") (Fixture.sse None))) = false.
Proof.
  split.
  - apply (proj1 (proj2 (proj2 (gate_accepts_exact_field Fixture.secret))
                    "s3cret" eq_refl ltac:(discriminate))).
    reflexivity.
  - apply not_true_is_false. intros H.
    apply (proj1 (proj2 (proj2 (gate_accepts_exact_field Fixture.secret))
                    "S3CRET" eq_refl ltac:(discriminate))) in H.
    discriminate.
Defined.

(** ** Rejections and the preflight bypass *)

Lemma underApi_not_root (version : string) (req : Express.Request) :
  Express.underApi (Express.path req) = true -> Express.routeRoot version req = None.
Proof.
  unfold Express.underApi, Express.routeRoot.
  destruct (Express.path req); [discriminate|reflexivity].
Qed.

(** C2, as stated, fails: the streaming server answers a wrong bearer
    credential with 401, not 403. *)
Lemma streaming_wrong_credential_gets_401 :
  bearerToken (Some "Bearer wrong") = Some "wrong" /\
  "wrong" <> Fixture.secret /\
  Sse.statusOf (snd (Sse.onRequest Fixture.secret Sse.init
                       (Fixture.sse (Some "Bearer wrong")) "id-1")) = Some 401%Z.
Proof. split; [reflexivity|]. split; [discriminate|reflexivity]. Qed.

(** C2 (amended): the credential a gate reads is the token field of the
    Authorization header, [bearerToken]: for a header that starts with
    "Bearer ", what stands between the first space and the next one.
    In the authenticated express server every request to a path below
    /api whose body the JSON parser accepted is answered by the gate
    alone, and no route handler runs: 401 when there is no token field or
    it is empty (no header, no "Bearer " prefix, nothing before the next
    space), 403 when the token field is not empty and differs from the
    secret.  In the streaming server every request other than OPTIONS
    that the gate rejects, for a missing or for a wrong token field, is
    answered 401 "Unauthorized" before the routing and leaves the
    registry as it was. *)
Theorem gate_rejects_before_routing
    (secret version : string) (tools : list ToolDefinition)
    (handlers : string -> option ToolHandler) :
  (forall (req : Express.Request) (b : Js.value),
      Express.body req = inl b ->
      Express.underApi (Express.path req) = true ->
      (Js.falsy (bearerToken (Express.authorization req)) = true ->
       Express.app secret version tools handlers req =
         ([Express.Console (Js.Warn "Auth Warning: Missing Authorization header or Bearer prefix.")],
          {| Express.statusCode := 401;
             Express.payload := Js.VObj [("error", Js.VStr "Unauthorized: Missing token")] |})) /\
      (forall tok : string,
          bearerToken (Express.authorization req) = Some tok ->
          tok <> EmptyString -> tok <> secret ->
          Express.app secret version tools handlers req =
            ([Express.Console (Js.Warn "Auth Warning: Invalid token received.")],
             {| Express.statusCode := 403;
                Express.payload := Js.VObj [("error", Js.VStr "Forbidden: Invalid token")] |}))) /\
  (forall (w : Sse.world) (req : Sse.Request) (uuid : string),
      Sse.method req <> "OPTIONS" ->
      snd (Sse.checkAuth secret req) = false ->
      Sse.onRequest secret w req uuid =
        (w, Sse.cors ++ fst (Sse.checkAuth secret req) ++ Sse.respond 401 "Unauthorized") /\
      Sse.statusOf (snd (Sse.onRequest secret w req uuid)) = Some 401%Z).
Proof.
  split.
  - intros req b Hbody Hapi. unfold Express.app.
    rewrite Hbody, (underApi_not_root version req Hapi), Hapi.
    unfold Express.authenticateToken. split.
    + intros Hmissing.
      destruct (bearerToken (Express.authorization req)) as [[|c tok]|];
        try discriminate; reflexivity.
    + intros tok Htok Hne Hsecret. rewrite Htok.
      destruct tok as [|c tok]; [congruence|].
      destruct (Js.strict_ne (String c tok) secret) eqn:E; [reflexivity|].
      apply strict_ne_false in E. congruence.
  - intros w req uuid Hmethod Hrej.
    assert (Hon : Sse.onRequest secret w req uuid =
              (w, Sse.cors ++ fst (Sse.checkAuth secret req) ++ Sse.respond 401 "Unauthorized")).
    { unfold Sse.onRequest.
      apply String.eqb_neq in Hmethod. rewrite Hmethod.
      destruct (Sse.checkAuth secret req) as [warnings ok]. simpl in Hrej. subst ok.
      reflexivity. }
    split; [exact Hon|]. rewrite Hon. simpl.
    unfold Sse.checkAuth in *.
    destruct (bearerToken (Sse.authorization req)) as [[|c tok]|]; try reflexivity.
    destruct (Js.strict_ne (String c tok) secret); [reflexivity|discriminate].
Qed.

Lemma gate_rejects_before_routing_witness :
  Express.statusCode
    (snd (Express.app Fixture.secret "0.1.1" Fixture.tools
            (Fixture.handlers Fixture.plainFailure)
            (Fixture.execute (Some "Bearer wrong") (Js.VObj [])))) = 403%Z /\
  Sse.statusOf (snd (Sse.onRequest Fixture.secret Sse.init (Fixture.sse None) "id-1"))
    = Some 401%Z.
Proof.
  split.
  - rewrite (proj2 (proj1 (gate_rejects_before_routing Fixture.secret "0.1.1" Fixture.tools
                             (Fixture.handlers Fixture.plainFailure))
                      (Fixture.execute (Some "Bearer wrong") (Js.VObj [])) (Js.VObj [])
                      eq_refl eq_refl)
               "wrong" eq_refl ltac:(discriminate) ltac:(discriminate)).
    reflexivity.
  - apply (proj2 (gate_rejects_before_routing Fixture.secret "0.1.1" Fixture.tools
                    (Fixture.handlers Fixture.plainFailure))
             Sse.init (Fixture.sse None) "id-1");
      [discriminate|reflexivity].
Defined.

(** C10: an OPTIONS request is answered 204 with an empty body whatever
    its Authorization header: the reply and the registry are the same
    for any two credentials, and the gate logs nothing, as it is not
    consulted. *)
Theorem options_bypasses_gate
    (secret : string) (w : Sse.world) (req : Sse.Request)
    (auth1 auth2 : option string) (uuid : string) :
  Sse.method req = "OPTIONS" ->
  Sse.step secret w (Sse.Incoming (Sse.withCredential auth1 req) uuid) =
    (w, Sse.cors ++ [Sse.WriteHead 204 None; Sse.End None]) /\
  Sse.step secret w (Sse.Incoming (Sse.withCredential auth1 req) uuid) =
    Sse.step secret w (Sse.Incoming (Sse.withCredential auth2 req) uuid) /\
  Sse.statusOf (snd (Sse.step secret w (Sse.Incoming (Sse.withCredential auth1 req) uuid)))
    = Some 204%Z /\
  Sse.bodyOf (snd (Sse.step secret w (Sse.Incoming (Sse.withCredential auth1 req) uuid)))
    = None.
Proof.
  intros Hm.
  assert (H : forall auth, Sse.step secret w (Sse.Incoming (Sse.withCredential auth req) uuid) =
                (w, Sse.cors ++ [Sse.WriteHead 204 None; Sse.End None])).
  { intros auth. simpl. unfold Sse.onRequest. simpl Sse.method. rewrite Hm. reflexivity. }
  rewrite !H. repeat split; reflexivity.
Qed.

Lemma options_bypasses_gate_witness :
  Sse.step Fixture.secret Sse.init
    (Sse.Incoming (Sse.withCredential None (Fixture.options None)) "id-1") =
  Sse.step Fixture.secret Sse.init
    (Sse.Incoming (Sse.withCredential (Some "Bearer wrong") (Fixture.options None)) "id-1").
Proof.
  apply (options_bypasses_gate Fixture.secret Sse.init (Fixture.options None)
           None (Some "Bearer wrong") "id-1" eq_refl).
Defined.

(** ** Startup *)

Lemma gatedStartup_listening
    (tools : list ToolDefinition) (handlers : string -> option ToolHandler)
    (env : Startup.Env) (s : option string) :
  snd (Startup.gatedStartup tools handlers env) = Startup.Listening s ->
  exists tok, s = Some tok /\ tok <> EmptyString /\ Startup.AUTH_TOKEN env = Some tok.
Proof.
  unfold Startup.gatedStartup.
  destruct (Startup.AUTH_TOKEN env) as [[|c tok]|]; simpl; try discriminate.
  destruct (Startup.parseArgs env) as [effs [code|args]]; simpl; try discriminate.
  destruct (negb _); simpl; try discriminate.
  destruct (String.eqb (Startup.command args) "init"); simpl; try discriminate.
  destruct (Startup.register _ _); simpl; try discriminate.
  destruct (String.eqb (Startup.command args) "start"); simpl; try discriminate.
  intros [= <-]. exists (String c tok). repeat split. discriminate.
Qed.

(** C3, as stated, fails: the entry point of src/index.ts reads no
    secret; without one it starts listening and answers an API request
    that carries no credential. *)
Lemma ungated_entry_point_starts_without_secret :
  Startup.AUTH_TOKEN (Fixture.env None) = None /\
  Startup.openStartup Fixture.tools (Fixture.handlers Fixture.plainFailure) (Fixture.env None)
    = ([], Startup.Listening None) /\
  Express.statusCode
    (snd (Express.openApp "0.1.1" Fixture.tools (Fixture.handlers Fixture.plainFailure)
            (Fixture.status None))) = 200%Z.
Proof. repeat split. Qed.

(** C3 (amended): the two entry points that have a gate, the streaming
    server and the authenticated express server, exit with code 1 after
    the fatal error message when AUTH_TOKEN is unset or empty, before
    anything else runs; whenever one of them gets to listen, its gate
    holds the non-empty secret of the environment.  (The entry points
    without a gate read no secret.) *)
Theorem gated_entry_points_refuse_without_secret
    (tools : list ToolDefinition) (handlers : string -> option ToolHandler)
    (env : Startup.Env) :
  (Js.falsy (Startup.AUTH_TOKEN env) = true ->
   Startup.sseStartup tools handlers env =
     ([Startup.Console (Js.Error "FATAL ERROR: Environment variable 'AUTH_TOKEN' is not set.")],
      Startup.Exit 1) /\
   Startup.apiStartup tools handlers env =
     ([Startup.Console (Js.Error "FATAL ERROR: Environment variable 'AUTH_TOKEN' is not set.")],
      Startup.Exit 1)) /\
  (forall s : option string,
      snd (Startup.sseStartup tools handlers env) = Startup.Listening s \/
      snd (Startup.apiStartup tools handlers env) = Startup.Listening s ->
      exists tok, s = Some tok /\ tok <> EmptyString /\ Startup.AUTH_TOKEN env = Some tok).
Proof.
  split.
  - intros H. unfold Startup.sseStartup, Startup.apiStartup, Startup.gatedStartup.
    destruct (Startup.AUTH_TOKEN env) as [[|c tok]|]; try discriminate; split; reflexivity.
  - intros s [H|H]; exact (gatedStartup_listening tools handlers env s H).
Qed.

Lemma gated_entry_points_refuse_without_secret_witness :
  Startup.sseStartup Fixture.tools (Fixture.handlers Fixture.plainFailure) (Fixture.env None) =
    ([Startup.Console (Js.Error "FATAL ERROR: Environment variable 'AUTH_TOKEN' is not set.")],
     Startup.Exit 1).
Proof.
  apply (proj1 (gated_entry_points_refuse_without_secret Fixture.tools
                  (Fixture.handlers Fixture.plainFailure) (Fixture.env None))).
  reflexivity.
Defined.

(** ** The synchronous invocation pipeline *)

Section Pipeline.
Variables (secret version : string).
Variable tools : list ToolDefinition.
Variable handlers : string -> option ToolHandler.

Abbreviation app := (Express.app secret version tools handlers).
Abbreviation openApp := (Express.openApp version tools handlers).
Abbreviation handleToolExecution := (Express.handleToolExecution tools handlers).

Lemma authenticateToken_accepts (req : Express.Request) :
  snd (Express.authenticateToken secret req) = Express.Next ->
  Express.authenticateToken secret req = ([], Express.Next).
Proof.
  unfold Express.authenticateToken.
  destruct (bearerToken (Express.authorization req)) as [[|c tok]|]; try discriminate.
  destruct (Js.strict_ne (String c tok) secret); [discriminate|reflexivity].
Qed.

(** An authenticated POST to /api/tools/:toolName/execute reaches
    [handleToolExecution] with the path parameter and the parsed body. *)
Lemma app_execute (req : Express.Request) (toolName : string) (params : Js.value) :
  Express.method req = "POST" ->
  Express.path req = ["api"; "tools"; toolName; "execute"] ->
  Express.body req = inl params ->
  snd (Express.authenticateToken secret req) = Express.Next ->
  app req = Express.finish req (handleToolExecution toolName params).
Proof.
  intros Hm Hp Hb Hauth. unfold Express.app.
  rewrite Hb, (authenticateToken_accepts req Hauth).
  unfold Express.routeRoot, Express.underApi, Express.protectedRoutes,
    Express.routeStatus, Express.routeTools, Express.routeExecute, Express.orElse.
  rewrite Hp, Hm. simpl. destruct (handleToolExecution toolName params). reflexivity.
Qed.

Lemma openApp_execute (req : Express.Request) (toolName : string) (params : Js.value) :
  Express.method req = "POST" ->
  Express.path req = ["api"; "tools"; toolName; "execute"] ->
  Express.body req = inl params ->
  openApp req = Express.finish req (handleToolExecution toolName params).
Proof.
  intros Hm Hp Hb. unfold Express.openApp.
  rewrite Hb.
  unfold Express.routeRoot, Express.routeStatus, Express.routeExecute, Express.orElse.
  rewrite Hp, Hm. reflexivity.
Qed.

Lemma Express_invocations_app (a b : list Express.effect) :
  Express.invocations (a ++ b) = (Express.invocations a + Express.invocations b)%nat.
Proof.
  induction a as [|[c|t v] a IH]; simpl; [reflexivity|exact IH|rewrite IH; reflexivity].
Qed.


End Pipeline.

(** ** The field-path index of a validation report *)

Section Report.





















End Report.

(** ** Handler failures and invalid input at the endpoint *)

(** C5, as stated, fails: a handler that throws an error object with a
    numeric [status] (an upstream HTTP failure) makes the endpoint
    answer with that status, 503 here, not 500; and a thrown value that
    is not an Error is answered with a fixed message. *)
Lemma thrown_status_is_passed_through :
  Express.app Fixture.secret "0.1.1" Fixture.tools (Fixture.handlers Fixture.upstreamFailure)
    (Fixture.execute (Some "Bearer s3cret") (Js.VObj [("sql", Js.VStr "select 1")])) =
  ([ Express.Console (Js.Log "Executing tool 'run_sql' with params:");
     Express.Invoke "run_sql" (Js.VObj [("sql", Js.VStr "select 1")]);
     Express.Console (Js.Error "Error caught in handleToolExecution for tool 'run_sql':");
     Express.Console (Js.Error "Unhandled Error: POST /api/tools/run_sql/execute") ],
   {| Express.statusCode := 503;
      Express.payload := Js.VObj [("error", Js.VStr "Request failed with status code 503")] |}) /\
  Express.payload
    (snd (Express.app Fixture.secret "0.1.1" Fixture.tools
            (Fixture.handlers {| Js.instanceofError := false; Js.status := Js.VUndefined;
                                 Js.message := "quota exceeded" |})
            (Fixture.execute (Some "Bearer s3cret") (Js.VObj [("sql", Js.VStr "select 1")]))))
  = Js.VObj [("error", Js.VStr "Internal Server Error")].
Proof. split; reflexivity. Qed.

(** C5 (amended): when the handler of a registered tool throws on
    validated input, the endpoint answers the same with or without the
    gate in front (once the gate has accepted the request), the handler
    having been called exactly once.  For a thrown value that the framework takes for an error, the
    status is the value's [status] when that is a number from 100 to 999
    and 500 otherwise; when the value has no numeric [status], or one
    from 400 to 599, the payload is the error with the thrown message if
    the value is an Error and with "Internal Server Error" if it is not.
    In particular an Error without a numeric status gives 500 with
    exactly its message.  A thrown value that the framework does not
    take for an error (a falsy one, 'route', 'router') gets the
    framework's 404.  The express servers keep no registry or other
    state: the reply and the trace are all a request produces. *)
Theorem handler_failure_reply
    (secret version : string) (tools : list ToolDefinition)
    (handlers : string -> option ToolHandler)
    (req : Express.Request) (toolName : string) (params validated : Js.value)
    (tool : ToolDefinition) (handler : ToolHandler) (thrown : Js.rejection) :
  Express.method req = "POST" ->
  Express.path req = ["api"; "tools"; toolName; "execute"] ->
  Express.body req = inl params ->
  find (fun t => String.eqb (name t) toolName) tools = Some tool ->
  handlers toolName = Some handler ->
  Zod.safeParse (inputSchema tool) params = inl validated ->
  handler validated = inr thrown ->
  let reply := snd (Express.openApp version tools handlers req) in
  (snd (Express.authenticateToken secret req) = Express.Next ->
   snd (Express.app secret version tools handlers req) = reply /\
   Express.invocations (fst (Express.app secret version tools handlers req)) = 1%nat) /\
  Express.invocations (fst (Express.openApp version tools handlers req)) = 1%nat /\
  match thrown with
  | Js.NoError => Express.statusCode reply = 404%Z
  | Js.Failure err =>
      let message :=
        if Js.instanceofError err then Js.message err else "Internal Server Error" in
      match Js.status err with
      | Js.VNum n =>
          Express.statusCode reply = (if (100 <=? n)%Z && (n <=? 999)%Z then n else 500%Z) /\
          ((400 <= n <= 599)%Z ->
           reply = {| Express.statusCode := n;
                      Express.payload := Js.VObj [("error", Js.VStr message)] |})
      | _ =>
          reply = {| Express.statusCode := 500;
                     Express.payload := Js.VObj [("error", Js.VStr message)] |}
      end
  end.
Proof.
  intros Hm Hp Hb Hfind Hh Hparse Hthrow reply.
  assert (Hexec : exists effs r,
             Express.handleToolExecution tools handlers toolName params = (effs, r) /\
             Express.invocations effs = 1%nat /\
             r = match thrown with
                 | Js.NoError => Express.Next
                 | Js.Failure err => Express.NextErr err
                 end).
  { unfold Express.handleToolExecution. rewrite Hfind, Hh, Hparse, Hthrow.
    eexists _, _. split; [reflexivity|]. split; reflexivity. }
  destruct Hexec as (effs & r & Hexec & Hinv & Hr).
  assert (Hopen : Express.openApp version tools handlers req =
                    Express.finish req (effs, r)).
  { rewrite (openApp_execute version tools handlers req toolName params Hm Hp Hb).
    rewrite Hexec. reflexivity. }
  assert (Hfst : Express.invocations (fst (Express.finish req (effs, r))) = 1%nat).
  { subst r. destruct thrown as [|err]; simpl; [exact Hinv|].
    rewrite Express_invocations_app, Hinv. reflexivity. }
  split; [|split].
  - intros Hauth. unfold reply.
    rewrite (app_execute secret version tools handlers req toolName params Hm Hp Hb Hauth).
    rewrite Hexec, Hopen. split; [reflexivity|exact Hfst].
  - rewrite Hopen. exact Hfst.
  - unfold reply. rewrite Hopen. subst r.
    destruct thrown as [|err]; [reflexivity|].
    unfold Express.finish, Express.errorMiddleware, Express.validStatus. simpl.
    destruct (Js.status err) as [| | |n| | |]; try reflexivity.
    split; [destruct ((100 <=? n)%Z && (n <=? 999)%Z); reflexivity|].
    intros [Hlo Hhi].
    assert (E : ((100 <=? n)%Z && (n <=? 999)%Z) = true).
    { apply andb_true_intro. split; apply Z.leb_le; lia. }
    rewrite E. reflexivity.
Qed.

Lemma handler_failure_reply_witness :
  snd (Express.app Fixture.secret "0.1.1" Fixture.tools (Fixture.handlers Fixture.plainFailure)
         (Fixture.execute (Some "Bearer s3cret") (Js.VObj [("sql", Js.VStr "select 1")]))) =
  {| Express.statusCode := 500;
     Express.payload := Js.VObj [("error", Js.VStr "connection refused")] |}.
Proof.
  destruct (handler_failure_reply Fixture.secret "0.1.1" Fixture.tools
              (Fixture.handlers Fixture.plainFailure)
              (Fixture.execute (Some "Bearer s3cret") (Js.VObj [("sql", Js.VStr "select 1")]))
              "run_sql" (Js.VObj [("sql", Js.VStr "select 1")])
              (Js.VObj [("sql", Js.VStr "select 1")])
              Fixture.run_sql (fun _ => inr (Js.Failure Fixture.plainFailure))
              (Js.Failure Fixture.plainFailure)
              eq_refl eq_refl eq_refl eq_refl eq_refl eq_refl eq_refl)
    as (Happ & _ & Hreply).
  rewrite (proj1 (Happ eq_refl)). exact Hreply.
Defined.



(** ** The streaming endpoint *)

Section Streaming.
Variable secret : string.

Lemma checkAuth_ok (req : Sse.Request) :
  snd (Sse.checkAuth secret req) = true -> Sse.checkAuth secret req = ([], true).
Proof.
  unfold Sse.checkAuth.
  destruct (bearerToken (Sse.authorization req)) as [[|c tok]|]; try discriminate.
  destruct (Js.strict_ne (String c tok) secret); [discriminate|reflexivity].
Qed.

Lemma onRequest_post (w : Sse.world) (req : Sse.Request) (uuid : string) :
  Sse.method req = "POST" -> Sse.pathname req = Sse.MCP_POST_PATH ->
  snd (Sse.checkAuth secret req) = true ->
  Sse.onRequest secret w req uuid = (w, Sse.cors ++ Sse.postMessage w req).
Proof.
  intros Hm Hp Hauth. unfold Sse.onRequest.
  rewrite Hm, Hp, (checkAuth_ok req Hauth). reflexivity.
Qed.

Lemma onRequest_open (w : Sse.world) (req : Sse.Request) (uuid : string) :
  Sse.method req = "GET" -> Sse.pathname req = "/mcp-sse" ->
  snd (Sse.checkAuth secret req) = true ->
  Sse.onRequest secret w req uuid =
    (fst (Sse.openSse w uuid), Sse.cors ++ snd (Sse.openSse w uuid)).
Proof.
  intros Hm Hp Hauth. unfold Sse.onRequest.
  rewrite Hm, Hp, (checkAuth_ok req Hauth). reflexivity.
Qed.

End Streaming.

(** C7, as stated, fails: in POST /mcp-post?sessionId= the parameter is
    not missing, its value is the empty string, and that identifier is
    absent from the registry; yet the reply is 400 "Missing sessionId
    query parameter", not 404. *)
Lemma empty_session_id_gets_400 :
  Sse.searchParams_get "sessionId" [("sessionId", EmptyString)] = Some EmptyString /\
  Sse.activeConnections Sse.init !! EmptyString = None /\
  Sse.step Fixture.secret Sse.init
    (Sse.Incoming (Fixture.post (Some "Bearer s3cret") [("sessionId", EmptyString)]) "id-1") =
  (Sse.init,
   Sse.cors ++
   [ Sse.Console (Js.Log "Received POST on /mcp-post for session ");
     Sse.WriteHead 400 Sse.json;
     Sse.End (Sse.errorBody "Missing sessionId query parameter") ]).
Proof. split; [reflexivity|]. split; reflexivity. Qed.

(** C7 (amended): an authenticated POST to /mcp-post never changes the
    registry; when its sessionId is not empty and is not a key of the
    registry the reply is 404 "Session not found or inactive"; when the
    sessionId parameter is missing or its value is empty the reply is
    400 "Missing sessionId query parameter". *)
Theorem post_unknown_or_missing_session
    (secret : string) (w : Sse.world) (req : Sse.Request) (uuid : string) :
  Sse.method req = "POST" -> Sse.pathname req = "/mcp-post" ->
  snd (Sse.checkAuth secret req) = true ->
  fst (Sse.step secret w (Sse.Incoming req uuid)) = w /\
  (forall sid : string,
      Sse.searchParams_get "sessionId" (Sse.searchParams req) = Some sid ->
      sid <> EmptyString ->
      Sse.activeConnections w !! sid = None ->
      Sse.statusOf (snd (Sse.step secret w (Sse.Incoming req uuid))) = Some 404%Z /\
      Sse.bodyOf (snd (Sse.step secret w (Sse.Incoming req uuid))) =
        Sse.errorBody "Session not found or inactive") /\
  (Js.falsy (Sse.searchParams_get "sessionId" (Sse.searchParams req)) = true ->
   Sse.statusOf (snd (Sse.step secret w (Sse.Incoming req uuid))) = Some 400%Z /\
   Sse.bodyOf (snd (Sse.step secret w (Sse.Incoming req uuid))) =
     Sse.errorBody "Missing sessionId query parameter").
Proof.
  intros Hm Hp Hauth. simpl Sse.step.
  rewrite (onRequest_post secret w req uuid Hm Hp Hauth).
  split; [reflexivity|]. unfold Sse.postMessage. split.
  - intros sid Hsid Hne Hreg. rewrite Hsid.
    destruct sid as [|c sid]; [congruence|]. rewrite Hreg. split; reflexivity.
  - intros Hfalsy.
    destruct (Sse.searchParams_get "sessionId" (Sse.searchParams req)) as [[|c sid]|];
      try discriminate; split; reflexivity.
Qed.

Lemma post_unknown_or_missing_session_witness :
  Sse.statusOf (snd (Sse.step Fixture.secret Sse.init
    (Sse.Incoming (Fixture.post (Some "Bearer s3cret") [("sessionId", "no-such-session")]) "id-1")))
  = Some 404%Z /\
  Sse.statusOf (snd (Sse.step Fixture.secret Sse.init
    (Sse.Incoming (Fixture.post (Some "Bearer s3cret") []) "id-1")))
  = Some 400%Z.
Proof.
  split.
  - apply (proj1 (proj2 (post_unknown_or_missing_session Fixture.secret Sse.init
             (Fixture.post (Some "Bearer s3cret") [("sessionId", "no-such-session")]) "id-1"
             eq_refl eq_refl eq_refl)) "no-such-session" eq_refl);
      [discriminate|reflexivity].
  - apply (proj2 (proj2 (post_unknown_or_missing_session Fixture.secret Sse.init
             (Fixture.post (Some "Bearer s3cret") []) "id-1"
             eq_refl eq_refl eq_refl))).
    reflexivity.
Defined.

(** C1, as stated, fails: after the handler's first step the registry
    already maps the new identifier to a transport whose start has not
    completed, the insertion precedes the start in the trace, and a
    message posted at that moment is handed to that transport. *)
Lemma session_registered_before_start :
  let opened := Sse.step Fixture.secret Sse.init
                  (Sse.Incoming (Fixture.sse (Some "Bearer s3cret")) "id-1") in
  Sse.activeConnections (fst opened) !! "id-1" = Some 0%nat /\
  Sse.started <$> (Sse.connections (fst opened) !! 0%nat) = Some false /\
  snd opened =
    Sse.cors ++
    [ Sse.Console (Js.Log "Client requesting SSE connection...");
      Sse.NewTransport 0 "id-1";
      Sse.Console (Js.Log "Generated session ID: id-1");
      Sse.RegistrySet "id-1" 0;
      Sse.Console (Js.Log "Active connections: 1");
      Sse.TransportStart 0 ] /\
  snd (Sse.step Fixture.secret (fst opened)
         (Sse.Incoming (Fixture.post (Some "Bearer s3cret") [("sessionId", "id-1")]) "id-2")) =
    Sse.cors ++
    [ Sse.Console (Js.Log "Received POST on /mcp-post for session id-1");
      Sse.HandlePostMessage 0 ].
Proof. vm_compute. repeat split. Qed.

Section Sessions.

Lemma openSse_world (w : Sse.world) (uuid : string) :
  fst (Sse.openSse w uuid) =
    {| Sse.activeConnections := <[uuid := length (Sse.connections w)]> (Sse.activeConnections w);
       Sse.connections := Sse.connections w ++ [Sse.fresh uuid] |}.
Proof. reflexivity. Qed.

Lemma afterStart_ok (w : Sse.world) (t : nat) (c : Sse.connection) (we : bool) :
  Sse.connections w !! t = Some c -> Sse.at_stage c = Sse.Starting ->
  Sse.afterStart w t None we =
    (Sse.update t (fun c => Sse.set_stage Sse.Connecting (Sse.set_started c)) w,
     [Sse.McpConnect t]).
Proof. intros Hc Hs. unfold Sse.afterStart. rewrite Hc, Hs. reflexivity. Qed.

Lemma afterConnect_ok (w : Sse.world) (t : nat) (c : Sse.connection) (we : bool) :
  Sse.connections w !! t = Some c -> Sse.at_stage c = Sse.Connecting ->
  Sse.afterConnect w t None we =
    (Sse.update t (Sse.set_stage Sse.Listening) w,
     [ Sse.Console (Js.Log ("MCP Server connected to transport for session " +:+ Sse.sessionId c));
       Sse.OnClose t ]).
Proof. intros Hc Hs. unfold Sse.afterConnect. rewrite Hc, Hs. reflexivity. Qed.



End Sessions.

(** C1 (amended): for every accepted streaming connection the handler
    constructs the transport, inserts its identifier into the registry
    and only then starts it, all in one step: after that step a lookup
    of the identifier finds the transport with its start still pending.
    When the start later completes, the transport is started, the
    identifier is still registered and the message handling gets
    attached. *)
Theorem session_registered_then_started
    (secret : string) (w : Sse.world) (req : Sse.Request) (uuid : string) :
  Sse.method req = "GET" -> Sse.pathname req = "/mcp-sse" ->
  snd (Sse.checkAuth secret req) = true ->
  let t := length (Sse.connections w) in
  let opened := Sse.step secret w (Sse.Incoming req uuid) in
  snd opened =
    Sse.cors ++
    [ Sse.Console (Js.Log "Client requesting SSE connection...");
      Sse.NewTransport t uuid;
      Sse.Console (Js.Log ("Generated session ID: " +:+ uuid));
      Sse.RegistrySet uuid t;
      Sse.Console (Js.Log ("Active connections: " +:+
                           pretty (size (<[uuid := t]> (Sse.activeConnections w)))));
      Sse.TransportStart t ] /\
  Sse.activeConnections (fst opened) !! uuid = Some t /\
  Sse.connections (fst opened) !! t = Some (Sse.fresh uuid) /\
  Sse.started (Sse.fresh uuid) = false /\
  (forall writableEnded : bool,
      let running := Sse.step secret (fst opened) (Sse.StartSettled t None writableEnded) in
      snd running = [Sse.McpConnect t] /\
      Sse.activeConnections (fst running) !! uuid = Some t /\
      Sse.started <$> (Sse.connections (fst running) !! t) = Some true).
Proof.
  intros Hm Hp Hauth t opened.
  assert (Hopened : opened = (fst (Sse.openSse w uuid), Sse.cors ++ snd (Sse.openSse w uuid))).
  { unfold opened. simpl Sse.step. apply (onRequest_open secret w req uuid Hm Hp Hauth). }
  assert (Hfresh : Sse.connections (fst opened) !! t = Some (Sse.fresh uuid)).
  { rewrite Hopened. simpl. apply list_lookup_middle. reflexivity. }
  split; [rewrite Hopened; reflexivity|].
  split; [rewrite Hopened; simpl; apply lookup_insert_eq|].
  split; [exact Hfresh|]. split; [reflexivity|].
  intros we running. unfold running. simpl Sse.step.
  rewrite (afterStart_ok (fst opened) t (Sse.fresh uuid) we Hfresh eq_refl).
  split; [reflexivity|]. split.
  - rewrite Hopened. simpl. apply lookup_insert_eq.
  - simpl. rewrite list_lookup_alter_eq, Hfresh. reflexivity.
Qed.

Lemma session_registered_then_started_witness :
  Sse.activeConnections
    (fst (Sse.step Fixture.secret Sse.init
            (Sse.Incoming (Fixture.sse (Some "Bearer s3cret")) "id-1"))) !! "id-1"
  = Some 0%nat.
Proof.
  apply (proj1 (proj2 (session_registered_then_started Fixture.secret Sse.init
                         (Fixture.sse (Some "Bearer s3cret")) "id-1"
                         eq_refl eq_refl eq_refl))).
Defined.

(** ** Removals from the registry *)

Section Removals.
Variable secret : string.

Lemma deletions_app (sid : string) (a b : list Sse.effect) :
  Sse.deletions sid (a ++ b) = Sse.deletions sid a + Sse.deletions sid b.
Proof.
  induction a as [|e a IH]; simpl; [reflexivity|].
  destruct e; simpl; try exact IH. rewrite IH. lia.
Qed.

Lemma deletions_checkAuth (sid : string) (req : Sse.Request) :
  Sse.deletions sid (fst (Sse.checkAuth secret req)) = 0.
Proof.
  unfold Sse.checkAuth.
  destruct (bearerToken (Sse.authorization req)) as [[|c tok]|]; try reflexivity.
  destruct (Js.strict_ne (String c tok) secret); reflexivity.
Qed.

Lemma deletions_postMessage (sid : string) (w : Sse.world) (req : Sse.Request) :
  Sse.deletions sid (Sse.postMessage w req) = 0.
Proof.
  unfold Sse.postMessage.
  destruct (Sse.searchParams_get "sessionId" (Sse.searchParams req)) as [[|c s]|];
    try reflexivity.
  destruct (Sse.activeConnections w !! String c s); reflexivity.
Qed.




(** A request either opens a session, or leaves the registry and the
    connections alone and removes nothing. *)
Lemma onRequest_cases (sid : string) (w : Sse.world) (req : Sse.Request) (uuid : string) :
  (Sse.opensSession secret req = true /\
   Sse.onRequest secret w req uuid =
     (fst (Sse.openSse w uuid), Sse.cors ++ snd (Sse.openSse w uuid))) \/
  (Sse.opensSession secret req = false /\
   fst (Sse.onRequest secret w req uuid) = w /\
   Sse.deletions sid (snd (Sse.onRequest secret w req uuid)) = 0).
Proof.
  unfold Sse.opensSession, Sse.onRequest.
  pose proof (deletions_checkAuth sid req) as Hw.
  pose proof (deletions_postMessage sid w req) as Hpost.
  destruct (String.eqb (Sse.method req) "OPTIONS"); simpl; [right; repeat split|].
  destruct (snd (Sse.checkAuth secret req)) eqn:Hok.
  - rewrite (checkAuth_ok secret req Hok). simpl.
    destruct (String.eqb (Sse.pathname req) "/mcp-sse"); simpl.
    + destruct (String.eqb (Sse.method req) "GET"); simpl.
      * left. split; reflexivity.
      * right. split; [reflexivity|].
        destruct (_ && _); simpl; [|split; reflexivity].
        split; [reflexivity|]. exact Hpost.
    + right. split; [reflexivity|].
      destruct (_ && _); simpl; [|split; reflexivity].
      split; [reflexivity|]. exact Hpost.
  - destruct (Sse.checkAuth secret req) as [warnings ok]. simpl in *. subst ok. simpl.
    right. repeat split. rewrite deletions_app. simpl. rewrite Hw. reflexivity.
Qed.



Lemma issued_cons (e : Sse.event) (es : list Sse.event) :
  Sse.issued secret (e :: es) = Sse.issued secret [e] ++ Sse.issued secret es.
Proof.
  destruct e; simpl; try reflexivity.
  destruct (Sse.opensSession secret req); reflexivity.
Qed.


End Removals.

(** ** Two sessions side by side *)

Section TwoSessions.
Variable secret : string.

Lemma fst_run_cons (w : Sse.world) (e : Sse.event) (es : list Sse.event) :
  fst (Sse.run secret w (e :: es)) = fst (Sse.run secret (fst (Sse.step secret w e)) es).
Proof.
  simpl. destruct (Sse.step secret w e) as [w1 out1]. simpl.
  destruct (Sse.run secret w1 es) as [w2 out2]. reflexivity.
Qed.

Lemma step_open (w : Sse.world) (req : Sse.Request) (uuid : string) :
  Sse.opensSession secret req = true ->
  fst (Sse.step secret w (Sse.Incoming req uuid)) =
    {| Sse.activeConnections := <[uuid := length (Sse.connections w)]> (Sse.activeConnections w);
       Sse.connections := Sse.connections w ++ [Sse.fresh uuid] |}.
Proof.
  intros Hopen. simpl.
  destruct (onRequest_cases secret uuid w req uuid) as [[_ Hon]|[Hno _]]; [|congruence].
  rewrite Hon. reflexivity.
Qed.

Lemma step_start_ok (w : Sse.world) (t : nat) (c : Sse.connection) (we : bool) :
  Sse.connections w !! t = Some c -> Sse.at_stage c = Sse.Starting ->
  fst (Sse.step secret w (Sse.StartSettled t None we)) =
    Sse.update t (fun c => Sse.set_stage Sse.Connecting (Sse.set_started c)) w.
Proof. intros Hc Hs. simpl. rewrite (afterStart_ok w t c we Hc Hs). reflexivity. Qed.



End TwoSessions.




(** * Further properties of the gate *)

Lemma split_fields_noSpace (s f : string) :
  f ∈ Js.split " " s -> noSpace f = true.
Proof.
  revert f. induction s as [|c s IH]; intros f Hf; simpl in Hf.
  - apply list_elem_of_singleton in Hf. subst f. reflexivity.
  - destruct (Ascii.eqb c " ") eqn:Ec.
    + apply elem_of_cons in Hf as [->|Hf]; [reflexivity|]. apply IH, Hf.
    + destruct (Js.split " " s) as [|g gs] eqn:Es.
      * apply list_elem_of_singleton in Hf. subst f. simpl. rewrite Ec. reflexivity.
      * apply elem_of_cons in Hf as [->|Hf].
        -- simpl. rewrite Ec. simpl. apply IH. apply elem_of_cons. left. reflexivity.
        -- apply IH. apply elem_of_cons. right. exact Hf.
Qed.

Lemma bearerToken_field (h : option string) (tok : string) :
  bearerToken h = Some tok -> noSpace tok = true.
Proof.
  unfold bearerToken. destruct h as [[|c h]|]; try discriminate.
  destruct (Js.startsWith "Bearer " (String c h)); [|discriminate].
  intros H. apply (split_fields_noSpace (String c h)).
  apply list_elem_of_lookup. exists 1%nat. exact H.
Qed.

(** X1: a configured secret that contains a space can never be
    presented: both gates reject every request, whatever its header. *)
Theorem secret_with_space_locks_out (secret : string) :
  noSpace secret = false ->
  (forall req : Sse.Request, snd (Sse.checkAuth secret req) = false) /\
  (forall req : Express.Request,
      snd (Express.authenticateToken secret req) <> Express.Next).
Proof.
  intros Hsp. split.
  - intros req. apply not_true_is_false. intros H.
    apply checkAuth_true_iff in H as [H _].
    apply bearerToken_field in H. congruence.
  - intros req H.
    apply authenticateToken_next_iff in H as [H _].
    apply bearerToken_field in H. congruence.
Qed.

Lemma secret_with_space_locks_out_witness :
  snd (Sse.checkAuth "my secret" (Fixture.sse (Some "Bearer my secret"))) = false.
Proof.
  apply (proj1 (secret_with_space_locks_out "my secret" eq_refl)).
Defined.

Lemma bearerToken_empty_field (h : string) :
  h = "Bearer " \/ (exists rest, h = "Bearer  " +:+ rest) ->
  bearerToken (Some h) = Some EmptyString.
Proof.
  intros [->|[rest ->]]; [reflexivity|].
  unfold String.append. cbn. reflexivity.
Qed.

(** X2: a header made of the prefix "Bearer " alone, or with a second
    space right after it (as in "Bearer  token"), has an empty token
    field: both gates take the "missing credential" path, not the
    "invalid credential" one, even if the secret follows. *)
Theorem empty_token_field_is_missing (secret h : string) :
  h = "Bearer " \/ (exists rest, h = "Bearer  " +:+ rest) ->
  (forall req : Sse.Request,
      Sse.authorization req = Some h ->
      Sse.checkAuth secret req =
        ([Sse.Console (Js.Warn "Auth Warning: Missing token")], false)) /\
  (forall req : Express.Request,
      Express.authorization req = Some h ->
      Express.authenticateToken secret req =
        ([Express.Console (Js.Warn "Auth Warning: Missing Authorization header or Bearer prefix.")],
         Express.errorJson 401 "Unauthorized: Missing token")).
Proof.
  intros H. pose proof (bearerToken_empty_field h H) as Htok. split; intros req Hreq.
  - unfold Sse.checkAuth. rewrite Hreq, Htok. reflexivity.
  - unfold Express.authenticateToken. rewrite Hreq, Htok. reflexivity.
Qed.

Lemma empty_token_field_is_missing_witness :
  Express.authenticateToken Fixture.secret
    (Fixture.execute (Some "Bearer  s3cret") Js.VNull) =
  ([Express.Console (Js.Warn "Auth Warning: Missing Authorization header or Bearer prefix.")],
   Express.errorJson 401 "Unauthorized: Missing token").
Proof.
  apply (proj2 (empty_token_field_is_missing Fixture.secret "Bearer  s3cret"
                  (or_intror (ex_intro _ "s3cret" eq_refl)))).
  reflexivity.
Defined.

(** * Further properties of the streaming server *)

Section Registry.
Variable secret : string.

Lemma fst_run_app (w : Sse.world) (es1 es2 : list Sse.event) :
  fst (Sse.run secret w (es1 ++ es2)) =
  fst (Sse.run secret (fst (Sse.run secret w es1)) es2).
Proof.
  revert w. induction es1 as [|e es1 IH]; intros w; [reflexivity|].
  rewrite <- app_comm_cons, !fst_run_cons. apply IH.
Qed.

Lemma lookup_alter_inv (f : Sse.connection -> Sse.connection) (t t' : nat)
    (cs : list Sse.connection) (c' : Sse.connection) :
  alter f t cs !! t' = Some c' ->
  exists c, cs !! t' = Some c /\ ((t' <> t /\ c' = c) \/ (t' = t /\ c' = f c)).
Proof.
  destruct (decide (t = t')) as [->|Hne].
  - rewrite list_lookup_alter_eq. destruct (cs !! t') as [c|]; [|discriminate].
    intros [= <-]. exists c. split; [reflexivity|]. right. split; reflexivity.
  - rewrite list_lookup_alter_ne by exact Hne. intros H. exists c'. split; [exact H|].
    left. split; congruence.
Qed.

Lemma lookup_alter_fwd (f : Sse.connection -> Sse.connection) (t t' : nat)
    (cs : list Sse.connection) (c : Sse.connection) :
  cs !! t' = Some c ->
  (forall c, Sse.sessionId (f c) = Sse.sessionId c) ->
  exists c', alter f t cs !! t' = Some c' /\ Sse.sessionId c' = Sse.sessionId c.
Proof.
  intros Hc Hf. destruct (decide (t = t')) as [->|Hne].
  - rewrite list_lookup_alter_eq, Hc. exists (f c). split; [reflexivity|apply Hf].
  - rewrite list_lookup_alter_ne by exact Hne. exists c. split; [exact Hc|reflexivity].
Qed.

Lemma consistent_update (w : Sse.world) (t : nat) (f : Sse.connection -> Sse.connection) :
  (forall c, Sse.sessionId (f c) = Sse.sessionId c) ->
  Sse.registryConsistent w -> Sse.registryConsistent (Sse.update t f w).
Proof.
  intros Hf Hw sid t' Hreg. destruct (Hw sid t' Hreg) as (c & Hc & Hsid).
  destruct (lookup_alter_fwd f t t' (Sse.connections w) c Hc Hf) as (c' & Hc' & Hsid').
  exists c'. split; [exact Hc'|congruence].
Qed.

Lemma consistent_open (w : Sse.world) (uuid : string) :
  Sse.registryConsistent w -> Sse.registryConsistent (fst (Sse.openSse w uuid)).
Proof.
  intros Hw sid t Hreg. simpl in *.
  destruct (decide (uuid = sid)) as [->|Hne].
  - rewrite lookup_insert_eq in Hreg. injection Hreg as <-.
    exists (Sse.fresh sid). split; [|reflexivity].
    apply list_lookup_middle. reflexivity.
  - rewrite lookup_insert_ne in Hreg by exact Hne.
    destruct (Hw sid t Hreg) as (c & Hc & Hsid). exists c. split; [|exact Hsid].
    rewrite lookup_app_l; [exact Hc|]. apply lookup_lt_Some in Hc. exact Hc.
Qed.

Lemma consistent_step (w : Sse.world) (e : Sse.event) :
  Sse.registryConsistent w -> Sse.registryConsistent (fst (Sse.step secret w e)).
Proof.
  intros Hw. destruct e as [req uuid|t failure we|t failure we|t|s failure we]; simpl.
  - destruct (onRequest_cases secret uuid w req uuid) as [[_ Hon]|(_ & Hsame & _)].
    + rewrite Hon. apply consistent_open, Hw.
    + rewrite Hsame. exact Hw.
  - unfold Sse.afterStart. destruct (Sse.connections w !! t) as [c|]; [|exact Hw].
    destruct (Sse.at_stage c), failure; simpl; try exact Hw;
      apply consistent_update; try exact Hw; intros c'; reflexivity.
  - unfold Sse.afterConnect. destruct (Sse.connections w !! t) as [c|]; [|exact Hw].
    destruct (Sse.at_stage c), failure; simpl; try exact Hw;
      apply consistent_update; try exact Hw; intros c'; reflexivity.
  - unfold Sse.emitClose. destruct (Sse.connections w !! t) as [c|]; [|exact Hw].
    destruct (Sse.reqClosed c); [exact Hw|].
    assert (Hupd : Sse.registryConsistent (Sse.update t Sse.set_reqClosed w))
      by (apply consistent_update; [intros c'; reflexivity|exact Hw]).
    destruct (Sse.at_stage c); simpl; try exact Hupd.
    intros sid t' Hreg. simpl in Hreg.
    apply lookup_delete_Some in Hreg as [_ Hreg].
    destruct (Hupd sid t' Hreg) as (c1 & Hc1 & Hsid1).
    destruct (lookup_alter_fwd Sse.set_transportClosed t t' _ c1 Hc1) as (c2 & Hc2 & Hsid2);
      [intros c'; reflexivity|].
    exists c2. split; [exact Hc2|congruence].
  - exact Hw.
Qed.

Lemma consistent_run (es : list Sse.event) (w : Sse.world) :
  Sse.registryConsistent w -> Sse.registryConsistent (fst (Sse.run secret w es)).
Proof.
  revert w. induction es as [|e es IH]; intros w Hw; [exact Hw|].
  rewrite fst_run_cons. apply IH, consistent_step, Hw.
Qed.

End Registry.

Lemma consistent_reachable (secret : string) (es : list Sse.event) :
  Sse.registryConsistent (fst (Sse.run secret Sse.init es)).
Proof.
  apply consistent_run. intros sid t H. simpl in H.
  rewrite lookup_empty in H. discriminate.
Qed.

(** X3: along every run of the server, whatever the order of requests,
    settled promises and 'close' events, each registry entry names a
    stored transport whose session identifier is the entry's key. *)
Theorem registry_stays_consistent (secret : string) (es : list Sse.event)
    (sid : string) (t : nat) :
  Sse.activeConnections (fst (Sse.run secret Sse.init es)) !! sid = Some t ->
  exists c, Sse.connections (fst (Sse.run secret Sse.init es)) !! t = Some c /\
            Sse.sessionId c = sid.
Proof. apply (consistent_reachable secret es). Qed.

Lemma registry_stays_consistent_witness :
  exists c,
    Sse.connections
      (fst (Sse.run Fixture.secret Sse.init
              [ Sse.Incoming (Fixture.sse (Some "Bearer s3cret")) "id-1";
                Sse.Incoming (Fixture.sse (Some "Bearer s3cret")) "id-2";
                Sse.StartSettled 0 None false; Sse.ReqClose 0 ])) !! 1%nat = Some c /\
    Sse.sessionId c = "id-2".
Proof.
  apply (registry_stays_consistent Fixture.secret
           [ Sse.Incoming (Fixture.sse (Some "Bearer s3cret")) "id-1";
             Sse.Incoming (Fixture.sse (Some "Bearer s3cret")) "id-2";
             Sse.StartSettled 0 None false; Sse.ReqClose 0 ] "id-2" 1%nat).
  vm_compute. reflexivity.
Defined.

(** X4: in every state the server can reach, an authenticated POST to
    /mcp-post whose (non-empty) sessionId is registered is handed to the
    transport registered under it, which carries that very identifier;
    the gateway writes no status of its own and the registry and the
    connections stay as they were. *)
Theorem post_is_routed_to_named_session
    (secret : string) (es : list Sse.event) (req : Sse.Request)
    (uuid sid : string) (t : nat) :
  let w := fst (Sse.run secret Sse.init es) in
  Sse.method req = "POST" -> Sse.pathname req = "/mcp-post" ->
  snd (Sse.checkAuth secret req) = true ->
  Sse.searchParams_get "sessionId" (Sse.searchParams req) = Some sid ->
  sid <> EmptyString ->
  Sse.activeConnections w !! sid = Some t ->
  Sse.step secret w (Sse.Incoming req uuid) =
    (w, Sse.cors ++
        [ Sse.Console (Js.Log ("Received POST on /mcp-post for session " +:+ sid));
          Sse.HandlePostMessage t ]) /\
  Sse.statusOf (snd (Sse.step secret w (Sse.Incoming req uuid))) = None /\
  exists c, Sse.connections w !! t = Some c /\ Sse.sessionId c = sid.
Proof.
  intros w Hm Hp Hauth Hsid Hne Hreg.
  assert (Hstep : Sse.step secret w (Sse.Incoming req uuid) =
            (w, Sse.cors ++
                [ Sse.Console (Js.Log ("Received POST on /mcp-post for session " +:+ sid));
                  Sse.HandlePostMessage t ])).
  { simpl Sse.step. rewrite (onRequest_post secret w req uuid Hm Hp Hauth).
    unfold Sse.postMessage. rewrite Hsid. destruct sid as [|c sid]; [congruence|].
    rewrite Hreg. reflexivity. }
  split; [exact Hstep|]. split; [rewrite Hstep; reflexivity|].
  exact (consistent_reachable secret es sid t Hreg).
Qed.

Lemma post_is_routed_to_named_session_witness :
  Sse.step Fixture.secret
    (fst (Sse.run Fixture.secret Sse.init
            [Sse.Incoming (Fixture.sse (Some "Bearer s3cret")) "id-1"]))
    (Sse.Incoming (Fixture.post (Some "Bearer s3cret") [("sessionId", "id-1")]) "id-2") =
  (fst (Sse.run Fixture.secret Sse.init
          [Sse.Incoming (Fixture.sse (Some "Bearer s3cret")) "id-1"]),
   Sse.cors ++
   [ Sse.Console (Js.Log "Received POST on /mcp-post for session id-1");
     Sse.HandlePostMessage 0 ]).
Proof.
  apply (proj1 (post_is_routed_to_named_session Fixture.secret
                  [Sse.Incoming (Fixture.sse (Some "Bearer s3cret")) "id-1"]
                  (Fixture.post (Some "Bearer s3cret") [("sessionId", "id-1")])
                  "id-2" "id-1" 0%nat eq_refl eq_refl eq_refl eq_refl
                  ltac:(discriminate) ltac:(vm_compute; reflexivity))).
Defined.

(** ** Entries that are never removed *)

Section Stuck.
Variable secret : string.

Lemma stuck_alter (sid : string) (f : Sse.connection -> Sse.connection) (t : nat)
    (cs : list Sse.connection) (regs : gmap string nat) :
  (forall c, Sse.sessionId (f c) = Sse.sessionId c) ->
  (forall c, cs !! t = Some c -> Sse.unclosable c = true -> Sse.unclosable (f c) = true) ->
  Sse.stuck sid {| Sse.activeConnections := regs; Sse.connections := cs |} ->
  forall regs', Sse.stuck sid {| Sse.activeConnections := regs';
                                  Sse.connections := alter f t cs |}.
Proof.
  intros Hsid Hf Hst regs' t' c' Hc' Hc'sid. simpl in Hc'.
  destruct (lookup_alter_inv f t t' cs c' Hc') as (c & Hc & [[_ ->]|[-> ->]]).
  - exact (Hst t' c Hc Hc'sid).
  - apply Hf; [exact Hc|]. apply (Hst t c Hc). rewrite <- Hsid. exact Hc'sid.
Qed.

Lemma stuck_update (sid : string) (f : Sse.connection -> Sse.connection) (t : nat)
    (w : Sse.world) :
  (forall c, Sse.sessionId (f c) = Sse.sessionId c) ->
  (forall c, Sse.connections w !! t = Some c ->
             Sse.unclosable c = true -> Sse.unclosable (f c) = true) ->
  Sse.stuck sid w -> Sse.stuck sid (Sse.update t f w).
Proof.
  intros Hsid Hf Hst. destruct w as [regs cs]. apply (stuck_alter sid f t cs regs); assumption.
Qed.

(** One task keeps a stuck entry, unless it generates the identifier
    again. *)
Lemma stuck_step (sid : string) (t : nat) (w : Sse.world) (e : Sse.event) :
  Sse.activeConnections w !! sid = Some t -> Sse.stuck sid w ->
  sid ∉ Sse.issued secret [e] ->
  Sse.activeConnections (fst (Sse.step secret w e)) !! sid = Some t /\
  Sse.stuck sid (fst (Sse.step secret w e)).
Proof.
  intros Hreg Hst Hfresh.
  destruct e as [req uuid|t0 failure we|t0 failure we|t0|s failure we]; simpl.
  - destruct (onRequest_cases secret uuid w req uuid) as [[Hopen Hon]|(_ & Hsame & _)].
    + simpl in Hfresh. rewrite Hopen in Hfresh.
      assert (Hne : uuid <> sid).
      { intros ->. apply Hfresh. apply elem_of_cons. left. reflexivity. }
      rewrite Hon. simpl. split; [rewrite lookup_insert_ne by exact Hne; exact Hreg|].
      intros t' c Hc Hsid. simpl in Hc.
      apply lookup_app_Some in Hc as [Hc|[_ Hc]]; [exact (Hst t' c Hc Hsid)|].
      destruct (t' - length (Sse.connections w)) as [|n]; simpl in Hc; [|discriminate].
      injection Hc as <-. simpl in Hsid. congruence.
    + rewrite Hsame. split; assumption.
  - unfold Sse.afterStart. destruct (Sse.connections w !! t0) as [c0|] eqn:Hc0;
      [|split; assumption].
    destruct (Sse.at_stage c0) eqn:Hs0, failure; simpl; try (split; assumption);
      (split; [exact Hreg|]); apply stuck_update; try exact Hst;
      try (intros c'; reflexivity);
      intros c Hc Hun; rewrite Hc0 in Hc; injection Hc as <-;
      unfold Sse.unclosable in *; rewrite Hs0 in Hun; simpl; try exact Hun; reflexivity.
  - unfold Sse.afterConnect. destruct (Sse.connections w !! t0) as [c0|] eqn:Hc0;
      [|split; assumption].
    destruct (Sse.at_stage c0) eqn:Hs0, failure; simpl; try (split; assumption);
      (split; [exact Hreg|]); apply stuck_update; try exact Hst;
      try (intros c'; reflexivity);
      intros c Hc Hun; rewrite Hc0 in Hc; injection Hc as <-;
      unfold Sse.unclosable in *; rewrite Hs0 in Hun; simpl; try exact Hun; reflexivity.
  - unfold Sse.emitClose. destruct (Sse.connections w !! t0) as [c0|] eqn:Hc0;
      [|split; assumption].
    destruct (Sse.reqClosed c0) eqn:Hr0; [split; assumption|].
    assert (Hupd : Sse.stuck sid (Sse.update t0 Sse.set_reqClosed w)).
    { apply stuck_update; [intros c'; reflexivity| |exact Hst].
      intros c _ _. unfold Sse.unclosable. simpl. destruct (Sse.at_stage c); reflexivity. }
    destruct (Sse.at_stage c0) eqn:Hs0; simpl; try (split; [exact Hreg|exact Hupd]).
    assert (Hne : Sse.sessionId c0 <> sid).
    { intros Hsid. pose proof (Hst t0 c0 Hc0 Hsid) as Hun.
      unfold Sse.unclosable in Hun. rewrite Hs0, Hr0 in Hun. discriminate. }
    split; [rewrite lookup_delete_ne by exact Hne; exact Hreg|].
    apply (stuck_alter sid Sse.set_transportClosed t0 _ (Sse.activeConnections w));
      [intros c'; reflexivity|intros c _ Hun; exact Hun|].
    exact Hupd.
  - split; assumption.
Qed.

Lemma not_issued_cons (sid : string) (e : Sse.event) (es : list Sse.event) :
  sid ∉ Sse.issued secret (e :: es) ->
  (sid ∉ Sse.issued secret [e]) /\ (sid ∉ Sse.issued secret es).
Proof.
  rewrite (issued_cons secret e es). intros H. split; intros Hin; apply H;
    apply elem_of_app; [left|right]; exact Hin.
Qed.

Lemma stuck_run (sid : string) (t : nat) (es : list Sse.event) (w : Sse.world) :
  Sse.activeConnections w !! sid = Some t -> Sse.stuck sid w ->
  sid ∉ Sse.issued secret es ->
  Sse.activeConnections (fst (Sse.run secret w es)) !! sid = Some t.
Proof.
  revert w. induction es as [|e es IH]; intros w Hreg Hst Hfresh; [exact Hreg|].
  apply not_issued_cons in Hfresh as [He Hes].
  destruct (stuck_step sid t w e Hreg Hst He) as [Hreg' Hst'].
  rewrite fst_run_cons. apply IH; assumption.
Qed.

Lemma update_last (regs : gmap string nat) (cs : list Sse.connection)
    (c : Sse.connection) (f : Sse.connection -> Sse.connection) :
  Sse.update (length cs) f {| Sse.activeConnections := regs; Sse.connections := cs ++ [c] |} =
  {| Sse.activeConnections := regs; Sse.connections := cs ++ [f c] |}.
Proof.
  unfold Sse.update. simpl. f_equal.
  rewrite <- (Nat.add_0_r (length cs)) at 1. rewrite alter_app_r. reflexivity.
Qed.

Lemma lookup_last (regs : gmap string nat) (cs : list Sse.connection) (c : Sse.connection) :
  (Sse.connections {| Sse.activeConnections := regs; Sse.connections := cs ++ [c] |}
     !! length cs) = Some c.
Proof. simpl. apply list_lookup_middle. reflexivity. Qed.

(** A world whose newest transport carries the identifier, is the only
    one to carry it, and can no longer run its close listener. *)
Lemma stuck_last (uuid : string) (w : Sse.world) (c : Sse.connection) (regs : gmap string nat) :
  Sse.unused uuid w -> Sse.unclosable c = true ->
  Sse.stuck uuid {| Sse.activeConnections := regs; Sse.connections := Sse.connections w ++ [c] |}.
Proof.
  intros Hunused Hun t c' Hc' Hsid. simpl in Hc'.
  apply lookup_app_Some in Hc' as [Hc'|[_ Hc']].
  - exfalso. exact (Hunused t c' Hc' Hsid).
  - destruct (t - length (Sse.connections w)) as [|n]; simpl in Hc'; [|discriminate].
    injection Hc' as <-. exact Hun.
Qed.

Lemma step_start_failed (w : Sse.world) (t : nat) (c : Sse.connection)
    (failure : Js.thrown) (we : bool) :
  Sse.connections w !! t = Some c -> Sse.at_stage c = Sse.Starting ->
  Sse.step secret w (Sse.StartSettled t (Some failure) we) =
    (Sse.update t (Sse.set_stage Sse.Failed) w, Sse.setupFailed (Sse.started c) we).
Proof. intros Hc Hs. simpl. unfold Sse.afterStart. rewrite Hc, Hs. reflexivity. Qed.

Lemma step_connect_failed (w : Sse.world) (t : nat) (c : Sse.connection)
    (failure : Js.thrown) (we : bool) :
  Sse.connections w !! t = Some c -> Sse.at_stage c = Sse.Connecting ->
  Sse.step secret w (Sse.ConnectSettled t (Some failure) we) =
    (Sse.update t (Sse.set_stage Sse.Failed) w, Sse.setupFailed (Sse.started c) we).
Proof. intros Hc Hs. simpl. unfold Sse.afterConnect. rewrite Hc, Hs. reflexivity. Qed.

Lemma step_close_early (w : Sse.world) (t : nat) (c : Sse.connection) :
  Sse.connections w !! t = Some c -> Sse.reqClosed c = false ->
  Sse.at_stage c <> Sse.Listening ->
  Sse.step secret w (Sse.ReqClose t) = (Sse.update t Sse.set_reqClosed w, []).
Proof.
  intros Hc Hr Hs. simpl. unfold Sse.emitClose. rewrite Hc, Hr.
  destruct (Sse.at_stage c); try reflexivity. congruence.
Qed.

End Stuck.

(** X5: the catch block of the setup removes nothing: when the start of
    the transport fails, or the attachment of the message handling
    fails after a successful start, the identifier is still in the
    registry, and it stays there for as long as the server runs, after
    any later tasks in which that identifier is not generated again. *)
Theorem failed_setup_stays_registered
    (secret : string) (w : Sse.world) (req : Sse.Request) (uuid : string)
    (failure : Js.thrown) (we we' : bool) (es : list Sse.event) :
  Sse.opensSession secret req = true ->
  Sse.unused uuid w ->
  uuid ∉ Sse.issued secret es ->
  let t := length (Sse.connections w) in
  Sse.activeConnections
    (fst (Sse.run secret w
            ([Sse.Incoming req uuid; Sse.StartSettled t (Some failure) we] ++ es)))
    !! uuid = Some t /\
  Sse.activeConnections
    (fst (Sse.run secret w
            ([Sse.Incoming req uuid; Sse.StartSettled t None we';
              Sse.ConnectSettled t (Some failure) we] ++ es)))
    !! uuid = Some t.
Proof.
  intros Hopen Hunused Hfresh t. split.
  - rewrite fst_run_app. apply stuck_run; [| |exact Hfresh];
      rewrite !fst_run_cons; change (fst (Sse.run secret ?x [])) with x;
      rewrite (step_open secret w req uuid Hopen);
      rewrite (step_start_failed secret _ t (Sse.fresh uuid) failure we
                 (lookup_last _ _ _) eq_refl);
      simpl fst; unfold t; rewrite update_last.
    + simpl. apply lookup_insert_eq.
    + apply stuck_last; [exact Hunused|reflexivity].
  - rewrite fst_run_app. apply stuck_run; [| |exact Hfresh];
      rewrite !fst_run_cons; change (fst (Sse.run secret ?x [])) with x;
      rewrite (step_open secret w req uuid Hopen);
      rewrite (step_start_ok secret _ t (Sse.fresh uuid) we' (lookup_last _ _ _) eq_refl);
      unfold t; rewrite update_last; cbv beta;
      rewrite (step_connect_failed secret _ _
                 (Sse.set_stage Sse.Connecting (Sse.set_started (Sse.fresh uuid)))
                 failure we (lookup_last _ _ _) eq_refl);
      simpl fst; rewrite update_last.
    + simpl. apply lookup_insert_eq.
    + apply stuck_last; [exact Hunused|reflexivity].
Qed.

Lemma failed_setup_stays_registered_witness :
  Sse.activeConnections
    (fst (Sse.run Fixture.secret Sse.init
            ([ Sse.Incoming (Fixture.sse (Some "Bearer s3cret")) "id-1";
               Sse.StartSettled 0 (Some Fixture.plainFailure) false ] ++
             [ Sse.ReqClose 0;
               Sse.Incoming (Fixture.sse (Some "Bearer s3cret")) "id-2";
               Sse.ReqClose 0 ])))
    !! "id-1" = Some 0%nat.
Proof.
  apply (proj1 (failed_setup_stays_registered Fixture.secret Sse.init
                  (Fixture.sse (Some "Bearer s3cret")) "id-1" Fixture.plainFailure
                  false false
                  [ Sse.ReqClose 0;
                    Sse.Incoming (Fixture.sse (Some "Bearer s3cret")) "id-2";
                    Sse.ReqClose 0 ]
                  eq_refl
                  ltac:(intros t c H; vm_compute in H; discriminate)
                  ltac:(vm_compute; intros H; apply list_elem_of_singleton in H; discriminate))).
Defined.

(** X6: when the client disconnects while the connection is still being
    set up (before the close listener is registered), the 'close' event
    finds no listener: the identifier stays in the registry after any
    later run, even if the setup then completes, as long as the
    identifier is not generated again. *)
Theorem early_disconnect_stays_registered
    (secret : string) (w : Sse.world) (req : Sse.Request) (uuid : string)
    (es : list Sse.event) :
  Sse.opensSession secret req = true ->
  Sse.unused uuid w ->
  uuid ∉ Sse.issued secret es ->
  let t := length (Sse.connections w) in
  Sse.activeConnections
    (fst (Sse.run secret w ([Sse.Incoming req uuid; Sse.ReqClose t] ++ es)))
    !! uuid = Some t.
Proof.
  intros Hopen Hunused Hfresh t.
  rewrite fst_run_app. apply stuck_run; [| |exact Hfresh];
    rewrite !fst_run_cons; change (fst (Sse.run secret ?x [])) with x;
    rewrite (step_open secret w req uuid Hopen);
    rewrite (step_close_early secret _ t (Sse.fresh uuid) (lookup_last _ _ _) eq_refl)
      by discriminate;
    simpl fst; unfold t; rewrite update_last.
  - simpl. apply lookup_insert_eq.
  - apply stuck_last; [exact Hunused|reflexivity].
Qed.

Lemma early_disconnect_stays_registered_witness :
  Sse.activeConnections
    (fst (Sse.run Fixture.secret Sse.init
            ([ Sse.Incoming (Fixture.sse (Some "Bearer s3cret")) "id-1"; Sse.ReqClose 0 ] ++
             [ Sse.StartSettled 0 None false; Sse.ConnectSettled 0 None false;
               Sse.ReqClose 0 ])))
    !! "id-1" = Some 0%nat.
Proof.
  apply (early_disconnect_stays_registered Fixture.secret Sse.init
           (Fixture.sse (Some "Bearer s3cret")) "id-1"
           [ Sse.StartSettled 0 None false; Sse.ConnectSettled 0 None false; Sse.ReqClose 0 ]
           eq_refl
           ltac:(intros t c H; vm_compute in H; discriminate)
           ltac:(vm_compute; intros H; apply elem_of_nil in H; exact H)).
Defined.

(** * Further properties of the express servers *)

(** X9: [handleToolExecution] answers 404 with the message naming the
    tool, and logs nothing, exactly when the name it is given (the route
    parameter) is not in the tool list or has no handler, whatever the
    body: the schema is not consulted and no handler is called.  For
    any other name it logs at least one line. *)
Theorem unknown_tool_reply
    (tools : list ToolDefinition) (handlers : string -> option ToolHandler)
    (toolName : string) (params : Js.value) :
  (find (fun t => String.eqb (name t) toolName) tools = None \/ handlers toolName = None)
  <->
  Express.handleToolExecution tools handlers toolName params =
    ([], Express.Respond
           {| Express.statusCode := 404;
              Express.payload :=
                Js.VObj [("error", Js.VStr ("Tool '" +:+ toolName +:+ "' not found."))] |}).
Proof.
  unfold Express.handleToolExecution. split.
  - intros [-> | ->]; [reflexivity|].
    destruct (find _ tools); reflexivity.
  - destruct (find _ tools) as [tool|]; [|left; reflexivity].
    destruct (handlers toolName) as [handler|]; [|right; reflexivity].
    destruct (Zod.safeParse (inputSchema tool) params) as [validated|error];
      [destruct (handler validated)|]; discriminate.
Qed.

(** X10: when the input passes the schema and the handler returns, the
    reply is 200 with the handler's result as it is; the handler was
    called exactly once, with the output of the schema (the validated
    parameters), not with the raw body. *)
Theorem successful_execution_reply
    (secret version : string) (tools : list ToolDefinition)
    (handlers : string -> option ToolHandler)
    (req : Express.Request) (toolName : string) (params validated result : Js.value)
    (tool : ToolDefinition) (handler : ToolHandler) :
  Express.method req = "POST" ->
  Express.path req = ["api"; "tools"; toolName; "execute"] ->
  Express.body req = inl params ->
  find (fun t => String.eqb (name t) toolName) tools = Some tool ->
  handlers toolName = Some handler ->
  Zod.safeParse (inputSchema tool) params = inl validated ->
  handler validated = inl result ->
  let trace :=
    [ Express.Console (Js.Log ("Executing tool '" +:+ toolName +:+ "' with params:"));
      Express.Invoke toolName validated;
      Express.Console (Js.Log ("Tool '" +:+ toolName +:+ "' executed successfully.")) ] in
  let reply := {| Express.statusCode := 200; Express.payload := result |} in
  (snd (Express.authenticateToken secret req) = Express.Next ->
   Express.app secret version tools handlers req = (trace, reply)) /\
  Express.openApp version tools handlers req = (trace, reply).
Proof.
  intros Hm Hp Hb Hfind Hh Hparse Hret trace reply.
  assert (Hexec : Express.handleToolExecution tools handlers toolName params =
                  (trace, Express.Respond reply)).
  { unfold Express.handleToolExecution. rewrite Hfind, Hh, Hparse, Hret. reflexivity. }
  split.
  - intros Hauth.
    rewrite (app_execute secret version tools handlers req toolName params Hm Hp Hb Hauth).
    rewrite Hexec. reflexivity.
  - rewrite (openApp_execute version tools handlers req toolName params Hm Hp Hb).
    rewrite Hexec. reflexivity.
Qed.

(** X11: the gate of the authenticated server guards the paths below
    /api only: for any other path the reply does not depend on the
    Authorization header, and a GET or HEAD of the root with an accepted
    body is answered 200 with the banner. *)
Theorem gate_guards_api_only
    (secret version : string) (tools : list ToolDefinition)
    (handlers : string -> option ToolHandler) :
  (forall (req : Express.Request) (auth1 auth2 : option string),
      Express.underApi (Express.path req) = false ->
      Express.app secret version tools handlers (Express.withAuthorization auth1 req) =
      Express.app secret version tools handlers (Express.withAuthorization auth2 req)) /\
  (forall (req : Express.Request) (b : Js.value),
      Express.path req = [] -> Express.isGet (Express.method req) = true ->
      Express.body req = inl b ->
      Express.app secret version tools handlers req =
        ([], {| Express.statusCode := 200;
                Express.payload :=
                  Js.VStr ("MCP Server Neon (v" +:+ version +:+
                           ") is running. Use API endpoints.") |})).
Proof.
  split.
  - intros req auth1 auth2 Hapi. unfold Express.app. simpl.
    destruct (Express.body req); [|reflexivity].
    unfold Express.routeRoot. simpl.
    destruct (Express.path req) as [|seg rest] eqn:Hp; [reflexivity|].
    rewrite Hapi. reflexivity.
  - intros req b Hp Hget Hb. unfold Express.app, Express.routeRoot.
    rewrite Hb, Hp, Hget. reflexivity.
Qed.

Lemma gate_guards_api_only_witness :
  Express.app Fixture.secret "0.1.1" Fixture.tools (Fixture.handlers Fixture.plainFailure)
    {| Express.method := "GET"; Express.path := []; Express.authorization := None;
       Express.body := inl (Js.VObj []); Express.now := "2025-01-01T00:00:00.000Z" |} =
  ([], {| Express.statusCode := 200;
          Express.payload := Js.VStr "MCP Server Neon (v0.1.1) is running. Use API endpoints." |}).
Proof.
  apply (proj2 (gate_guards_api_only Fixture.secret "0.1.1" Fixture.tools
                  (Fixture.handlers Fixture.plainFailure))
           {| Express.method := "GET"; Express.path := []; Express.authorization := None;
              Express.body := inl (Js.VObj []); Express.now := "2025-01-01T00:00:00.000Z" |}
           (Js.VObj []) eq_refl eq_refl eq_refl).
Defined.

(** X12: the servers without a gate never read the Authorization
    header: two requests that differ in it only get the same reply and
    leave the same trace, on every route. *)
Theorem ungated_servers_ignore_credentials
    (version : string) (tools : list ToolDefinition)
    (handlers : string -> option ToolHandler)
    (req : Express.Request) (auth1 auth2 : option string) :
  Express.openApp version tools handlers (Express.withAuthorization auth1 req) =
  Express.openApp version tools handlers (Express.withAuthorization auth2 req) /\
  Express.statusApp version (Express.withAuthorization auth1 req) =
  Express.statusApp version (Express.withAuthorization auth2 req).
Proof. split; reflexivity. Qed.

Lemma successful_execution_reply_witness :
  Express.openApp "0.1.1" Fixture.tools
    (fun toolName => if String.eqb toolName "run_sql"
                     then Some (fun _ => inl (Js.VArr [Js.VNum 1])) else None)
    (Fixture.execute None (Js.VObj [("sql", Js.VStr "select 1"); ("extra", Js.VNull)])) =
  ([ Express.Console (Js.Log "Executing tool 'run_sql' with params:");
     Express.Invoke "run_sql" (Js.VObj [("sql", Js.VStr "select 1")]);
     Express.Console (Js.Log "Tool 'run_sql' executed successfully.") ],
   {| Express.statusCode := 200; Express.payload := Js.VArr [Js.VNum 1] |}).
Proof.
  apply (proj2 (successful_execution_reply Fixture.secret "0.1.1" Fixture.tools
                  (fun toolName => if String.eqb toolName "run_sql"
                                   then Some (fun _ => inl (Js.VArr [Js.VNum 1])) else None)
                  (Fixture.execute None
                     (Js.VObj [("sql", Js.VStr "select 1"); ("extra", Js.VNull)]))
                  "run_sql" (Js.VObj [("sql", Js.VStr "select 1"); ("extra", Js.VNull)])
                  (Js.VObj [("sql", Js.VStr "select 1")]) (Js.VArr [Js.VNum 1])
                  Fixture.run_sql (fun _ => inl (Js.VArr [Js.VNum 1]))
                  eq_refl eq_refl eq_refl eq_refl eq_refl eq_refl eq_refl)).
Defined.

(** * Further properties of the startup *)

Section Registration.
Variable tools : list ToolDefinition.
Variable handlers : string -> option ToolHandler.

Lemma includes_true (xs : list string) (x : string) :
  Startup.includes xs x = true <-> x ∈ xs.
Proof.
  unfold Startup.includes. rewrite existsb_exists. split.
  - intros (y & Hin & E). apply String.eqb_eq in E. subst y.
    apply list_elem_of_In, Hin.
  - intros Hin. exists x. split; [apply list_elem_of_In, Hin|apply String.eqb_refl].
Qed.

Lemma tool_none (registered : list string) (n : string) :
  Startup.tool registered n = None <-> n ∉ registered.
Proof.
  unfold Startup.tool. rewrite <- includes_true.
  destruct (Startup.includes registered n).
  - split; [discriminate|]. intros H. exfalso. apply H. reflexivity.
  - split; [intros _ H; discriminate|intros _; reflexivity].
Qed.

Lemma registerFrom_none (ts : list ToolDefinition) (registered : list string) :
  Startup.registerFrom handlers registered ts = None <->
  (forall tool, tool ∈ ts -> is_Some (handlers (name tool))) /\
  NoDup (map name ts) /\
  (forall tool, tool ∈ ts -> name tool ∉ registered).
Proof.
  revert registered. induction ts as [|t ts IH]; intros registered; simpl.
  - split; [|reflexivity]. intros _.
    split; [intros tool H; apply elem_of_nil in H; contradiction|].
    split; [apply NoDup_nil_2|intros tool H; apply elem_of_nil in H; contradiction].
  - destruct (handlers (name t)) as [h|] eqn:Hh.
    + destruct (Startup.tool registered (name t)) as [msg|] eqn:Htool.
      * split; [discriminate|]. intros (_ & _ & Hout). exfalso.
        assert (Hnot : name t ∉ registered)
          by (apply Hout, elem_of_cons; left; reflexivity).
        apply tool_none in Hnot. congruence.
      * apply tool_none in Htool. rewrite IH. split.
        -- intros (Hall & Hnodup & Hout).
           split; [|split].
           ++ intros tool Hin. apply elem_of_cons in Hin as [->|Hin]; [|exact (Hall tool Hin)].
              rewrite Hh. eexists. reflexivity.
           ++ apply NoDup_cons. split; [|exact Hnodup].
              intros Hin. apply list_elem_of_fmap in Hin as (t' & Hname & Hin).
              apply (Hout t' Hin). rewrite <- Hname. apply elem_of_cons. left. reflexivity.
           ++ intros tool Hin. apply elem_of_cons in Hin as [->|Hin]; [exact Htool|].
              intros Hreg. apply (Hout tool Hin). apply elem_of_cons. right. exact Hreg.
        -- intros (Hall & Hnodup & Hout). apply NoDup_cons in Hnodup as [Hfresh Hnodup].
           split; [|split; [exact Hnodup|]].
           ++ intros tool Hin. apply Hall. apply elem_of_cons. right. exact Hin.
           ++ intros tool Hin Hreg. apply elem_of_cons in Hreg as [Heq|Hreg].
              ** apply Hfresh. rewrite <- Heq. apply list_elem_of_fmap.
                 exists tool. split; [reflexivity|exact Hin].
              ** apply (Hout tool); [apply elem_of_cons; right; exact Hin|exact Hreg].
    + split; [discriminate|]. intros (Hall & _). exfalso.
      destruct (Hall t) as [h Hsome]; [apply elem_of_cons; left; reflexivity|]. congruence.
Qed.

Lemma register_none_iff (ts : list ToolDefinition) :
  Startup.register handlers ts = None <->
  (forall tool, tool ∈ ts -> is_Some (handlers (name tool))) /\ NoDup (map name ts).
Proof.
  unfold Startup.register. rewrite registerFrom_none. split.
  - intros (Hall & Hnodup & _). split; assumption.
  - intros (Hall & Hnodup). split; [exact Hall|]. split; [exact Hnodup|].
    intros tool _ H. apply elem_of_nil in H. contradiction.
Qed.

Lemma registerFrom_some (ts : list ToolDefinition) (registered : list string) (msg : string) :
  Startup.registerFrom handlers registered ts = Some msg ->
  exists pre tool post,
    ts = pre ++ tool :: post /\
    Startup.registerFrom handlers registered pre = None /\
    ((handlers (name tool) = None /\
      msg = "Handler for tool " +:+ name tool +:+ " not found") \/
     (is_Some (handlers (name tool)) /\
      (name tool ∈ map name pre \/ name tool ∈ registered) /\
      msg = "Tool " +:+ name tool +:+ " is already registered")).
Proof.
  revert registered. induction ts as [|t ts IH]; intros registered; simpl; [discriminate|].
  destruct (handlers (name t)) as [h|] eqn:Hh.
  - destruct (Startup.tool registered (name t)) as [msg'|] eqn:Htool.
    + intros [= <-]. exists [], t, ts. split; [reflexivity|]. split; [reflexivity|].
      right. split; [rewrite Hh; eexists; reflexivity|].
      unfold Startup.tool in Htool.
      destruct (Startup.includes registered (name t)) eqn:Hinc; [|discriminate].
      injection Htool as <-. split; [|reflexivity].
      right. apply includes_true, Hinc.
    + intros H. destruct (IH _ H) as (pre & tool & post & -> & Hpre & Hcase).
      exists (t :: pre), tool, post. split; [reflexivity|].
      split; [simpl; rewrite Hh, Htool; exact Hpre|].
      destruct Hcase as [Hcase|(Hsome & Hdup & Hmsg)]; [left; exact Hcase|].
      right. split; [exact Hsome|]. split; [|exact Hmsg].
      destruct Hdup as [Hdup|Hdup]; [left; simpl; apply elem_of_cons; right; exact Hdup|].
      apply elem_of_cons in Hdup as [->|Hdup]; [|right; exact Hdup].
      left. simpl. apply elem_of_cons. left. reflexivity.
  - intros [= <-]. exists [], t, ts. split; [reflexivity|]. split; [reflexivity|].
    left. split; [exact Hh|reflexivity].
Qed.

Lemma register_some (ts : list ToolDefinition) (msg : string) :
  Startup.register handlers ts = Some msg ->
  exists pre tool post,
    ts = pre ++ tool :: post /\
    Startup.register handlers pre = None /\
    ((handlers (name tool) = None /\
      msg = "Handler for tool " +:+ name tool +:+ " not found") \/
     (is_Some (handlers (name tool)) /\
      name tool ∈ map name pre /\
      msg = "Tool " +:+ name tool +:+ " is already registered")).
Proof.
  intros H. destruct (registerFrom_some ts [] msg H) as (pre & tool & post & E & Hpre & Hcase).
  exists pre, tool, post. split; [exact E|]. split; [exact Hpre|].
  destruct Hcase as [Hcase|(Hsome & [Hdup|Hdup] & Hmsg)].
  - left. exact Hcase.
  - right. split; [exact Hsome|]. split; [exact Hdup|exact Hmsg].
  - apply elem_of_nil in Hdup. contradiction.
Qed.

Lemma find_name (toolName : string) (ts : list ToolDefinition) (tool : ToolDefinition) :
  find (fun t => String.eqb (name t) toolName) ts = Some tool ->
  tool ∈ ts /\ name tool = toolName.
Proof.
  induction ts as [|t ts IH]; simpl; [discriminate|].
  destruct (String.eqb (name t) toolName) eqn:E.
  - intros [= <-]. split; [apply elem_of_cons; left; reflexivity|].
    apply String.eqb_eq, E.
  - intros H. destruct (IH H) as [Hin Hname]. split; [|exact Hname].
    apply elem_of_cons. right. exact Hin.
Qed.

End Registration.

(** X13: the registration loop at startup succeeds exactly when every
    tool of the list has a handler and no two tools of the list have the
    same name.  Otherwise it stops at the first tool, in list order,
    that has no handler (the exception names it) or that has a handler
    and repeats the name of an earlier tool (the server refuses the
    second registration); the tools before that one were registered. *)
Theorem registration_checks_every_tool
    (handlers : string -> option ToolHandler) (tools : list ToolDefinition) :
  (Startup.register handlers tools = None <->
   (forall tool, tool ∈ tools -> is_Some (handlers (name tool))) /\
   NoDup (map name tools)) /\
  (forall msg,
      Startup.register handlers tools = Some msg ->
      exists pre tool post,
        tools = pre ++ tool :: post /\
        Startup.register handlers pre = None /\
        ((handlers (name tool) = None /\
          msg = "Handler for tool " +:+ name tool +:+ " not found") \/
         (is_Some (handlers (name tool)) /\
          name tool ∈ map name pre /\
          msg = "Tool " +:+ name tool +:+ " is already registered"))).
Proof.
  split; [apply register_none_iff|]. intros msg. apply register_some.
Qed.

Lemma registration_checks_every_tool_witness :
  exists pre tool post,
    [Fixture.run_sql; Fixture.run_sql] = pre ++ tool :: post /\
    Startup.register (Fixture.handlers Fixture.plainFailure) pre = None /\
    ((Fixture.handlers Fixture.plainFailure (name tool) = None /\
      "Tool run_sql is already registered" =
        "Handler for tool " +:+ name tool +:+ " not found") \/
     (is_Some (Fixture.handlers Fixture.plainFailure (name tool)) /\
      name tool ∈ map name pre /\
      "Tool run_sql is already registered" =
        "Tool " +:+ name tool +:+ " is already registered")).
Proof.
  apply (proj2 (registration_checks_every_tool (Fixture.handlers Fixture.plainFailure)
                  [Fixture.run_sql; Fixture.run_sql])
           "Tool run_sql is already registered").
  reflexivity.
Defined.

(** X14: once the registration of a startup has succeeded, a name found
    in the tool list always has a handler, so the execute endpoint
    answers "not found" exactly for the names that are not in the list. *)
Theorem registered_tools_are_executable
    (tools : list ToolDefinition) (handlers : string -> option ToolHandler)
    (toolName : string) (params : Js.value) :
  Startup.register handlers tools = None ->
  (snd (Express.handleToolExecution tools handlers toolName params) =
     Express.errorJson 404 ("Tool '" +:+ toolName +:+ "' not found.")
   <-> find (fun t => String.eqb (name t) toolName) tools = None).
Proof.
  intros Hreg. unfold Express.handleToolExecution.
  destruct (find (fun t => String.eqb (name t) toolName) tools) as [tool|] eqn:Hfind.
  - destruct (find_name toolName tools tool Hfind) as [Hin Hname].
    destruct (proj1 (proj1 (register_none_iff handlers tools) Hreg) tool Hin) as [h Hh].
    rewrite Hname in Hh. rewrite Hh.
    split; [|discriminate].
    destruct (Zod.safeParse (inputSchema tool) params) as [v|err]; simpl.
    + destruct (h v) as [r|[|e]]; simpl; unfold Express.errorJson; intros H;
        discriminate.
    + unfold Express.errorJson. intros H. injection H as H _. discriminate.
  - split; reflexivity.
Qed.

Lemma registered_tools_are_executable_witness :
  snd (Express.handleToolExecution Fixture.tools (Fixture.handlers Fixture.plainFailure)
         "list_projects" (Js.VObj [])) =
    Express.errorJson 404 "Tool 'list_projects' not found.".
Proof.
  apply (proj2 (registered_tools_are_executable Fixture.tools
                  (Fixture.handlers Fixture.plainFailure) "list_projects" (Js.VObj [])
                  eq_refl)).
  reflexivity.
Defined.

Section Commands.
Variable tools : list ToolDefinition.
Variable handlers : string -> option ToolHandler.

Lemma parseArgs_init (env : Startup.Env) :
  Startup.argv env !! 2%nat = Some "init" -> 4 <= length (Startup.argv env) ->
  Startup.parseArgs env =
    ([], inr {| Startup.command := "init";
                Startup.neonApiKey := default EmptyString (Startup.argv env !! 3%nat);
                Startup.executablePath := default EmptyString (Startup.argv env !! 1%nat) |}).
Proof.
  intros H Hlen. unfold Startup.parseArgs. rewrite H. simpl.
  destruct (length (Startup.argv env) <? 4)%nat eqn:E; [|reflexivity].
  apply Nat.ltb_lt in E. lia.
Qed.

Lemma parseArgs_inr (env : Startup.Env) (args : Startup.Args) :
  snd (Startup.parseArgs env) = inr args ->
  Startup.argv env !! 2%nat = Some (Startup.command args) /\
  Startup.executablePath args = default EmptyString (Startup.argv env !! 1%nat) /\
  ((Startup.command args = "start" /\
    Startup.neonApiKey args = default EmptyString (Startup.NEON_API_KEY env)) \/
   (Startup.command args = "init" /\ 4 <= length (Startup.argv env) /\
    Startup.neonApiKey args = default EmptyString (Startup.argv env !! 3%nat))).
Proof.
  unfold Startup.parseArgs.
  destruct (Startup.argv env !! 2%nat) as [cmd|] eqn:Hcmd; [|discriminate].
  destruct (String.eqb cmd "start") eqn:Es.
  - apply String.eqb_eq in Es. subst cmd. simpl. intros [= <-]. simpl.
    repeat split. left. split; reflexivity.
  - destruct (String.eqb cmd "init") eqn:Ei; [|discriminate].
    apply String.eqb_eq in Ei. subst cmd.
    destruct (length (Startup.argv env) <? 4)%nat eqn:E; [discriminate|].
    apply Nat.ltb_ge in E. simpl. intros [= <-]. simpl.
    repeat split. right. repeat split. exact E.
Qed.

Lemma parseArgs_inl (env : Startup.Env) (code : Z) :
  snd (Startup.parseArgs env) = inl code ->
  code = 1%Z /\ Startup.argv env !! 2%nat <> Some "start" /\
  (Startup.argv env !! 2%nat = Some "init" -> length (Startup.argv env) < 4).
Proof.
  unfold Startup.parseArgs.
  destruct (Startup.argv env !! 2%nat) as [cmd|] eqn:Hcmd.
  - destruct (String.eqb cmd "start") eqn:Es; [discriminate|].
    apply String.eqb_neq in Es.
    destruct (String.eqb cmd "init") eqn:Ei.
    + destruct (length (Startup.argv env) <? 4)%nat eqn:E; [|discriminate].
      apply Nat.ltb_lt in E. simpl. intros [= <-].
      split; [reflexivity|]. split; [congruence|]. intros _. exact E.
    + apply String.eqb_neq in Ei. simpl. intros [= <-].
      split; [reflexivity|]. split; congruence.
  - simpl. intros [= <-]. split; [reflexivity|]. split; [discriminate|discriminate].
Qed.

End Commands.

(** X15: [parseArgs] returns only for the command "start", with the API
    key of the environment, and for "init" followed by an API key, with
    that key; for a missing or any other command, and for "init" without
    a key, it ends the process with code 1.  The command it returns is
    always one of the two known commands, so the entry points' own
    check of the command never fails. *)
Theorem parseArgs_outcomes (env : Startup.Env) :
  (forall args : Startup.Args,
      snd (Startup.parseArgs env) = inr args ->
      Startup.includes Startup.commands (Startup.command args) = true /\
      Startup.argv env !! 2%nat = Some (Startup.command args) /\
      Startup.executablePath args = default EmptyString (Startup.argv env !! 1%nat) /\
      ((Startup.command args = "start" /\
        Startup.neonApiKey args = default EmptyString (Startup.NEON_API_KEY env)) \/
       (Startup.command args = "init" /\ 4 <= length (Startup.argv env) /\
        Startup.neonApiKey args = default EmptyString (Startup.argv env !! 3%nat)))) /\
  (forall code : Z,
      snd (Startup.parseArgs env) = inl code ->
      code = 1%Z /\ Startup.argv env !! 2%nat <> Some "start" /\
      (Startup.argv env !! 2%nat = Some "init" -> length (Startup.argv env) < 4)).
Proof.
  split.
  - intros args H. destruct (parseArgs_inr env args H) as (Hcmd & Hexe & Hcases).
    split; [|split; [exact Hcmd|split; [exact Hexe|exact Hcases]]].
    destruct Hcases as [[-> _]|[-> _]]; reflexivity.
  - intros code. apply parseArgs_inl.
Qed.

Lemma parseArgs_outcomes_witness :
  Startup.argv (Fixture.env None) !! 2%nat = Some "start" /\
  Startup.includes Startup.commands "start" = true.
Proof.
  destruct (proj1 (parseArgs_outcomes (Fixture.env None))
              {| Startup.command := "start"; Startup.neonApiKey := "napi_key";
                 Startup.executablePath := "dist/index.js" |} eq_refl)
    as (Hin & Hcmd & _).
  split; [exact Hcmd|exact Hin].
Defined.

(** X17: the command "init" followed by an API key never registers the
    tools and never listens: the entry point awaits the configuration
    writer with the path of the script and the key (the entry points
    with a gate only when AUTH_TOKEN is set), and the process then exits
    with code 0 exactly when the writer returns; when the writer throws,
    nothing catches the exception and the exit is not reached. *)
Theorem init_writes_config_and_exits
    (packageName claudeConfigPath : string)
    (tools : list ToolDefinition) (handlers : string -> option ToolHandler)
    (env : Startup.Env) (d : Config.disk) :
  Startup.argv env !! 2%nat = Some "init" -> 4 <= length (Startup.argv env) ->
  let executablePath := default EmptyString (Startup.argv env !! 1%nat) in
  let neonApiKey := default EmptyString (Startup.argv env !! 3%nat) in
  let written := Config.handleInit packageName claudeConfigPath d executablePath neonApiKey in
  Startup.openStartup tools handlers env = ([], Startup.Init executablePath neonApiKey) /\
  (forall tok, Startup.AUTH_TOKEN env = Some tok -> tok <> EmptyString ->
               Startup.gatedStartup tools handlers env =
                 ([], Startup.Init executablePath neonApiKey)) /\
  Entry.conclude packageName claudeConfigPath d
    (snd (Startup.openStartup tools handlers env)) =
    (Config.effects written, Config.after written,
     match Config.threw written with
     | None => Startup.Exit 0
     | Some e => Startup.Uncaught e
     end) /\
  (snd (Entry.conclude packageName claudeConfigPath d
          (snd (Startup.openStartup tools handlers env))) = Startup.Exit 0
   <-> Config.threw written = None).
Proof.
  intros Hcmd Hlen executablePath neonApiKey written.
  pose proof (parseArgs_init env Hcmd Hlen) as Hp.
  assert (Hopen : Startup.openStartup tools handlers env =
                    ([], Startup.Init executablePath neonApiKey)).
  { unfold Startup.openStartup. rewrite Hp. reflexivity. }
  split; [exact Hopen|]. split; [|split].
  - intros tok Htok Hne. unfold Startup.gatedStartup. rewrite Htok, Hp.
    destruct tok; [congruence|]. reflexivity.
  - rewrite Hopen. reflexivity.
  - rewrite Hopen. simpl. fold written.
    destruct (Config.threw written); split; congruence.
Qed.

Lemma init_writes_config_and_exits_witness :
  snd (Entry.conclude "@neondatabase/mcp-server-neon" "claude_desktop_config.json"
         Config.NoDirectory
         (snd (Startup.openStartup Fixture.tools (fun _ => None)
                 {| Startup.AUTH_TOKEN := None; Startup.NEON_API_KEY := None;
                    Startup.argv := ["node"; "dist/index.js"; "init"; "napi_key"] |}))) =
    Startup.Exit 0 /\
  snd (Entry.conclude "@neondatabase/mcp-server-neon" "claude_desktop_config.json"
         (Config.Directory Config.NotJson)
         (snd (Startup.openStartup Fixture.tools (fun _ => None)
                 {| Startup.AUTH_TOKEN := None; Startup.NEON_API_KEY := None;
                    Startup.argv := ["node"; "dist/index.js"; "init"; "napi_key"] |}))) <>
    Startup.Exit 0.
Proof.
  split.
  - apply (proj2 (proj2 (proj2
             (init_writes_config_and_exits
                "@neondatabase/mcp-server-neon" "claude_desktop_config.json"
                Fixture.tools (fun _ => None)
                {| Startup.AUTH_TOKEN := None; Startup.NEON_API_KEY := None;
                   Startup.argv := ["node"; "dist/index.js"; "init"; "napi_key"] |}
                Config.NoDirectory eq_refl ltac:(simpl; lia))))).
    reflexivity.
  - intros H.
    apply (proj2 (proj2 (proj2
             (init_writes_config_and_exits
                "@neondatabase/mcp-server-neon" "claude_desktop_config.json"
                Fixture.tools (fun _ => None)
                {| Startup.AUTH_TOKEN := None; Startup.NEON_API_KEY := None;
                   Startup.argv := ["node"; "dist/index.js"; "init"; "napi_key"] |}
                (Config.Directory Config.NotJson) eq_refl ltac:(simpl; lia))))) in H.
    discriminate H.
Defined.

(** * The configuration writer *)

Section Writer.
Variables (packageName claudeConfigPath : string).

Abbreviation handleInit := (Config.handleInit packageName claudeConfigPath).
Abbreviation neonConfig := (Config.neonConfig packageName).

Lemma lookup_set_eq (k : string) (v : Js.value) (fs : list (string * Js.value)) :
  Config.lookupField k (Config.setField k v fs) = Some v.
Proof.
  induction fs as [|[k' v'] fs IH]; simpl.
  - rewrite String.eqb_refl. reflexivity.
  - destruct (String.eqb k' k) eqn:E; simpl.
    + rewrite String.eqb_refl. reflexivity.
    + rewrite E. exact IH.
Qed.

Lemma lookup_set_ne (k k' : string) (v : Js.value) (fs : list (string * Js.value)) :
  k <> k' -> Config.lookupField k (Config.setField k' v fs) = Config.lookupField k fs.
Proof.
  intros Hne. induction fs as [|[k0 v0] fs IH]; simpl.
  - destruct (String.eqb k' k) eqn:E; [|reflexivity].
    apply String.eqb_eq in E. congruence.
  - destruct (String.eqb k0 k') eqn:E; simpl.
    + apply String.eqb_eq in E. subst k0.
      destruct (String.eqb k' k) eqn:E'; [|reflexivity].
      apply String.eqb_eq in E'. congruence.
    + rewrite IH. reflexivity.
Qed.

Lemma set_set (k : string) (v1 v2 : Js.value) (fs : list (string * Js.value)) :
  Config.setField k v2 (Config.setField k v1 fs) = Config.setField k v2 fs.
Proof.
  induction fs as [|[k' v'] fs IH]; simpl.
  - rewrite String.eqb_refl. reflexivity.
  - destruct (String.eqb k' k) eqn:E; simpl.
    + rewrite String.eqb_refl. reflexivity.
    + rewrite E, IH. reflexivity.
Qed.

(** What a run that does not throw has read and written. *)
Lemma handleInit_success (d : Config.disk) (executablePath neonApiKey : string) :
  Config.threw (handleInit d executablePath neonApiKey) = None ->
  exists existing servers,
    (Config.fileOf d = Config.NoFile /\ existing = Js.VObj [("mcpServers", Js.VObj [])] \/
     Config.fileOf d = Config.Json existing) /\
    Config.member "mcpServers" existing = Some servers /\
    Config.after (handleInit d executablePath neonApiKey) =
      Config.Directory (Config.Json
        (Js.VObj (Config.setField "mcpServers"
                    (Js.VObj (Config.setField "neon" (neonConfig executablePath neonApiKey)
                                (Config.ownProps servers)))
                    (Config.ownProps existing)))).
Proof.
  unfold Config.handleInit.
  destruct (Config.fileOf d) as [| |v] eqn:Hfile.
  - simpl. intros _. eexists _, _. split; [left; split; reflexivity|]. split; reflexivity.
  - simpl. discriminate.
  - simpl.
    destruct (Config.hasIn Config.MCP_NEON_SERVER _) as [present|]; [|discriminate].
    destruct (Config.member "mcpServers" v) as [servers|] eqn:Hm; [|discriminate].
    simpl. intros _. exists v, servers. split; [right; reflexivity|]. split; [exact Hm|reflexivity].
Qed.

Lemma parsed_obj (fs : list (string * Js.value)) :
  Config.parsed (Js.VObj fs) =
  Config.distinct (map fst fs) && forallb (fun kv => Config.parsed (snd kv)) fs.
Proof. reflexivity. Qed.

Lemma keys_setField_ne (x k : string) (v : Js.value) (fs : list (string * Js.value)) :
  String.eqb x k = false ->
  existsb (String.eqb x) (map fst (Config.setField k v fs)) =
  existsb (String.eqb x) (map fst fs).
Proof.
  intros Hne. induction fs as [|[k0 v0] fs IH]; simpl.
  - rewrite Hne. reflexivity.
  - destruct (String.eqb k0 k) eqn:E; simpl.
    + apply String.eqb_eq in E. subst k0. reflexivity.
    + rewrite IH. reflexivity.
Qed.

Lemma distinct_setField (k : string) (v : Js.value) (fs : list (string * Js.value)) :
  Config.distinct (map fst fs) = true ->
  Config.distinct (map fst (Config.setField k v fs)) = true.
Proof.
  induction fs as [|[k0 v0] fs IH]; simpl; [reflexivity|].
  intros H. apply andb_prop in H as [Hk0 Hfs].
  destruct (String.eqb k0 k) eqn:E; simpl.
  - apply String.eqb_eq in E. subst k0. rewrite Hk0, Hfs. reflexivity.
  - rewrite (keys_setField_ne k0 k v fs E), Hk0, (IH Hfs). reflexivity.
Qed.

Lemma parsed_setField (k : string) (v : Js.value) (fs : list (string * Js.value)) :
  Config.parsed v = true ->
  forallb (fun kv => Config.parsed (snd kv)) fs = true ->
  forallb (fun kv => Config.parsed (snd kv)) (Config.setField k v fs) = true.
Proof.
  intros Hv. induction fs as [|[k0 v0] fs IH]; simpl.
  - intros _. rewrite Hv. reflexivity.
  - intros H. apply andb_prop in H as [Hv0 Hfs].
    destruct (String.eqb k0 k); simpl.
    + rewrite Hv, Hfs. reflexivity.
    + rewrite Hv0, (IH Hfs). reflexivity.
Qed.

Lemma parsed_lookupField (k : string) (v : Js.value) (fs : list (string * Js.value)) :
  forallb (fun kv => Config.parsed (snd kv)) fs = true ->
  Config.lookupField k fs = Some v -> Config.parsed v = true.
Proof.
  induction fs as [|[k0 v0] fs IH]; simpl; [discriminate|].
  intros H. apply andb_prop in H as [Hv0 Hfs].
  destruct (String.eqb k0 k); [intros [= <-]; exact Hv0|apply IH, Hfs].
Qed.

(** Setting a property to a stable value keeps an object stable. *)
Lemma parsed_set (k : string) (v : Js.value) (fs : list (string * Js.value)) :
  Config.parsed v = true -> Config.parsed (Js.VObj fs) = true ->
  Config.parsed (Js.VObj (Config.setField k v fs)) = true.
Proof.
  rewrite !parsed_obj. intros Hv H. apply andb_prop in H as [Hd Hp].
  rewrite (distinct_setField k v fs Hd), (parsed_setField k v fs Hv Hp). reflexivity.
Qed.

End Writer.

(** X18: on a configuration file that holds an object whose "mcpServers"
    is an object (or is absent), and when there is no file yet, the
    writer does not fail and writes a configuration in which
    mcpServers.neon is the command [npx -y <server> start <key>], where
    the server is the script's own path when that contains
    "dist/index.js" and the package name otherwise.  For a file that
    [JSON.parse] reads as it is written (its numbers are integers that a
    double holds exactly, no name occurs twice in an object), every
    other server entry and every other top-level property of the
    written configuration is as [JSON.parse] read it, and the written
    configuration is again such a value. *)
Theorem handleInit_installs_and_preserves
    (packageName claudeConfigPath : string) (d : Config.disk)
    (executablePath neonApiKey : string) :
  let r := Config.handleInit packageName claudeConfigPath d executablePath neonApiKey in
  let entry :=
    Js.VObj [ ("command", Js.VStr "npx");
              ("args",
               Js.VArr [ Js.VStr "-y";
                         Js.VStr (if Config.includes "dist/index.js" executablePath
                                  then executablePath else packageName);
                         Js.VStr "start"; Js.VStr neonApiKey ]) ] in
  (Config.fileOf d = Config.NoFile ->
   Config.threw r = None /\
   Config.after r =
     Config.Directory (Config.Json (Js.VObj [("mcpServers", Js.VObj [("neon", entry)])]))) /\
  (forall fields servers,
      Config.fileOf d = Config.Json (Js.VObj fields) ->
      Config.parsed (Js.VObj fields) = true ->
      Config.lookupField "mcpServers" fields = Some (Js.VObj servers) \/
      (Config.lookupField "mcpServers" fields = None /\ servers = []) ->
      Config.threw r = None /\
      exists new,
        Config.after r = Config.Directory (Config.Json new) /\
        Config.WriteFile new ∈ Config.effects r /\
        Config.parsed new = true /\
        Config.at_path ["mcpServers"; "neon"] new = Some entry /\
        (forall k, k <> "neon" ->
           Config.at_path ["mcpServers"; k] new = Config.lookupField k servers) /\
        (forall k, k <> "mcpServers" ->
           Config.at_path [k] new = Config.lookupField k fields)).
Proof.
  intros r entry. split.
  - intros Hfile. unfold r, Config.handleInit. rewrite Hfile. split; reflexivity.
  - intros fields servers Hfile Hparsed Hservers.
    assert (Hr : exists replacing made,
              r = {| Config.effects :=
                       made ++ replacing ++
                       [ Config.WriteFile
                           (Js.VObj (Config.setField "mcpServers"
                                       (Js.VObj (Config.setField "neon" entry servers)) fields));
                         Config.Console (Js.Log ("Config written to: " +:+ claudeConfigPath));
                         Config.Console (Js.Log "The Neon MCP server will start automatically the next time you open Claude.") ];
                     Config.after :=
                       Config.Directory (Config.Json
                         (Js.VObj (Config.setField "mcpServers"
                                     (Js.VObj (Config.setField "neon" entry servers)) fields)));
                     Config.threw := None |}).
    { unfold r, Config.handleInit. rewrite Hfile.
      unfold Config.optionalMember, Config.member.
      destruct Hservers as [Hs|[Hs ->]]; rewrite Hs; eexists _, _; reflexivity. }
    assert (Hstable : Config.parsed (Js.VObj servers) = true).
    { destruct Hservers as [Hs|[_ ->]]; [|reflexivity].
      rewrite parsed_obj in Hparsed. apply andb_prop in Hparsed as [_ Hp].
      exact (parsed_lookupField "mcpServers" _ fields Hp Hs). }
    destruct Hr as (replacing & made & ->). simpl. split; [reflexivity|].
    eexists. split; [reflexivity|]. split.
    { apply elem_of_app. right. apply elem_of_app. right. apply elem_of_cons. left. reflexivity. }
    split.
    { apply parsed_set; [|exact Hparsed]. apply parsed_set; [reflexivity|exact Hstable]. }
    split; [|split].
    + simpl. rewrite lookup_set_eq, lookup_set_eq. reflexivity.
    + intros k Hk. simpl. rewrite lookup_set_eq, (lookup_set_ne k "neon" _ _ Hk).
      destruct (Config.lookupField k servers); reflexivity.
    + intros k Hk. simpl. rewrite (lookup_set_ne k "mcpServers" _ _ Hk).
      destruct (Config.lookupField k fields); reflexivity.
Qed.

Lemma handleInit_installs_and_preserves_witness :
  Config.after
    (Config.handleInit "@neondatabase/mcp-server-neon" "claude_desktop_config.json"
       Config.NoDirectory "/usr/lib/node_modules/x/dist/index.js" "napi_key") =
  Config.Directory (Config.Json
    (Js.VObj [("mcpServers",
       Js.VObj [("neon",
         Js.VObj [ ("command", Js.VStr "npx");
                   ("args", Js.VArr [ Js.VStr "-y";
                                      Js.VStr "/usr/lib/node_modules/x/dist/index.js";
                                      Js.VStr "start"; Js.VStr "napi_key" ]) ])])])) /\
  Config.at_path ["theme"]
    (match Config.after
             (Config.handleInit "@neondatabase/mcp-server-neon" "claude_desktop_config.json"
                (Config.Directory (Config.Json
                   (Js.VObj [ ("theme", Js.VStr "dark");
                              ("mcpServers", Js.VObj [("other", Js.VObj [])]) ])))
                "/usr/bin/mcp" "napi_key") with
     | Config.Directory (Config.Json new) => new
     | _ => Js.VUndefined
     end) = Some (Js.VStr "dark").
Proof.
  split.
  - apply (proj2 (proj1 (handleInit_installs_and_preserves
                           "@neondatabase/mcp-server-neon" "claude_desktop_config.json"
                           Config.NoDirectory "/usr/lib/node_modules/x/dist/index.js" "napi_key")
                    eq_refl)).
  - destruct (proj2 (handleInit_installs_and_preserves
                       "@neondatabase/mcp-server-neon" "claude_desktop_config.json"
                       (Config.Directory (Config.Json
                          (Js.VObj [ ("theme", Js.VStr "dark");
                                     ("mcpServers", Js.VObj [("other", Js.VObj [])]) ])))
                       "/usr/bin/mcp" "napi_key")
                    [ ("theme", Js.VStr "dark");
                      ("mcpServers", Js.VObj [("other", Js.VObj [])]) ]
                    [("other", Js.VObj [])] eq_refl eq_refl (or_introl eq_refl))
      as (_ & new & Hafter & _ & _ & _ & _ & Hrest).
    rewrite Hafter. apply (Hrest "theme"). discriminate.
Defined.

(** X19: the writer is idempotent: after a run that did not fail, a
    second run with the same arguments announces the replacement and
    leaves the configuration exactly as the first run wrote it. *)
Theorem handleInit_idempotent
    (packageName claudeConfigPath : string) (d : Config.disk)
    (executablePath neonApiKey : string) :
  let first := Config.handleInit packageName claudeConfigPath d executablePath neonApiKey in
  Config.threw first = None ->
  let second :=
    Config.handleInit packageName claudeConfigPath (Config.after first)
      executablePath neonApiKey in
  Config.threw second = None /\
  Config.after second = Config.after first /\
  Config.Console (Js.Log "Replacing existing Neon MCP config...") ∈ Config.effects second.
Proof.
  intros first Hok second.
  destruct (handleInit_success packageName claudeConfigPath d executablePath neonApiKey Hok)
    as (existing & servers & _ & _ & Hafter).
  fold first in Hafter. unfold second. rewrite Hafter.
  unfold Config.handleInit. simpl Config.fileOf. cbv iota beta.
  unfold Config.optionalMember, Config.member. rewrite lookup_set_eq. simpl.
  rewrite lookup_set_eq.
  rewrite bool_decide_eq_true_2 by (eexists; reflexivity).
  simpl. rewrite !set_set. split; [reflexivity|]. split; [reflexivity|].
  apply elem_of_cons. left. reflexivity.
Qed.

Lemma handleInit_idempotent_witness :
  let first :=
    Config.handleInit "pkg" "claude_desktop_config.json"
      (Config.Directory (Config.Json (Js.VObj [("theme", Js.VStr "dark")])))
      "bin.js" "napi_key" in
  Config.after
    (Config.handleInit "pkg" "claude_desktop_config.json" (Config.after first)
       "bin.js" "napi_key") = Config.after first.
Proof.
  apply (proj1 (proj2 (handleInit_idempotent "pkg" "claude_desktop_config.json"
                         (Config.Directory (Config.Json (Js.VObj [("theme", Js.VStr "dark")])))
                         "bin.js" "napi_key" eq_refl))).
Defined.

(** X20: a run of the writer that fails writes nothing: the file is as
    it was.  It fails with a SyntaxError on a file that is not JSON, and
    with a TypeError on a file that holds null and on an object whose
    "mcpServers" is true, a number other than zero or a non-empty
    string. *)
Theorem handleInit_failure_keeps_file
    (packageName claudeConfigPath : string) (d : Config.disk)
    (executablePath neonApiKey : string) :
  let r := Config.handleInit packageName claudeConfigPath d executablePath neonApiKey in
  (forall e, Config.threw r = Some e ->
     Config.fileOf (Config.after r) = Config.fileOf d /\
     forall v, Config.WriteFile v ∉ Config.effects r) /\
  (Config.fileOf d = Config.NotJson -> Config.threw r = Some "SyntaxError") /\
  (Config.fileOf d = Config.Json Js.VNull -> Config.threw r = Some "TypeError") /\
  (forall fields v,
      Config.fileOf d = Config.Json (Js.VObj fields) ->
      Config.lookupField "mcpServers" fields = Some v ->
      Config.truthy v = true ->
      (forall fs, v <> Js.VObj fs) -> (forall xs, v <> Js.VArr xs) ->
      Config.threw r = Some "TypeError").
Proof.
  intros r.
  assert (Hmade : forall v, Config.WriteFile v ∉
            match d with
            | Config.NoDirectory =>
                [ Config.Console (Js.Log "Creating Claude config directory..."); Config.Mkdir ]
            | Config.Directory _ => []
            end).
  { intros v H. destruct d; simpl in H.
    - apply elem_of_cons in H as [H|H]; [discriminate|].
      apply list_elem_of_singleton in H. discriminate.
    - apply elem_of_nil in H. exact H. }
  split; [|split; [|split]].
  - intros e. unfold r, Config.handleInit.
    destruct (Config.fileOf d) as [| |c]; simpl; try discriminate.
    + intros _. split; [reflexivity|exact Hmade].
    + destruct (Config.hasIn Config.MCP_NEON_SERVER _) as [present|]; simpl.
      * destruct (Config.member "mcpServers" c); simpl; [discriminate|].
        intros _. split; [reflexivity|]. intros v H.
        apply elem_of_app in H as [H|H]; [exact (Hmade v H)|].
        destruct present; simpl in H.
        -- apply list_elem_of_singleton in H. discriminate.
        -- apply elem_of_nil in H. exact H.
      * intros _. split; [reflexivity|exact Hmade].
  - intros Hfile. unfold r, Config.handleInit. rewrite Hfile. reflexivity.
  - intros Hfile. unfold r, Config.handleInit. rewrite Hfile. reflexivity.
  - intros fields v Hfile Hv Htruthy Hobj Harr. unfold r, Config.handleInit.
    rewrite Hfile. unfold Config.optionalMember, Config.member. rewrite Hv. simpl.
    rewrite Htruthy.
    destruct v; simpl; try reflexivity.
    + exfalso. exact (Harr xs eq_refl).
    + exfalso. exact (Hobj fields0 eq_refl).
Qed.

Lemma handleInit_failure_keeps_file_witness :
  Config.threw
    (Config.handleInit "pkg" "claude_desktop_config.json"
       (Config.Directory (Config.Json (Js.VObj [("mcpServers", Js.VStr "none")])))
       "bin.js" "napi_key") = Some "TypeError".
Proof.
  apply (proj2 (proj2 (proj2 (handleInit_failure_keeps_file "pkg" "claude_desktop_config.json"
           (Config.Directory (Config.Json (Js.VObj [("mcpServers", Js.VStr "none")])))
           "bin.js" "napi_key")))
           [("mcpServers", Js.VStr "none")] (Js.VStr "none") eq_refl eq_refl eq_refl);
    intros ? H; discriminate H.
Defined.

(** * Where registry entries come from *)

Section Origin.
Variable secret : string.

Lemma registered_step (sid : string) (w : Sse.world) (e : Sse.event) :
  is_Some (Sse.activeConnections (fst (Sse.step secret w e)) !! sid) ->
  is_Some (Sse.activeConnections w !! sid) \/ sid ∈ Sse.issued secret [e].
Proof.
  destruct e as [req uuid|t failure we|t failure we|t|s failure we]; simpl.
  - destruct (onRequest_cases secret sid w req uuid) as [[Hopen Hon]|(_ & Hsame & _)].
    + rewrite Hon, Hopen. simpl. destruct (decide (uuid = sid)) as [->|Hne].
      * intros _. right. apply elem_of_cons. left. reflexivity.
      * rewrite lookup_insert_ne by exact Hne. intros H. left. exact H.
    + rewrite Hsame. intros H. left. exact H.
  - unfold Sse.afterStart. destruct (Sse.connections w !! t) as [c|]; [|intros H; left; exact H].
    destruct (Sse.at_stage c), failure; simpl; intros H; left; exact H.
  - unfold Sse.afterConnect. destruct (Sse.connections w !! t) as [c|]; [|intros H; left; exact H].
    destruct (Sse.at_stage c), failure; simpl; intros H; left; exact H.
  - unfold Sse.emitClose. destruct (Sse.connections w !! t) as [c|]; [|intros H; left; exact H].
    destruct (Sse.reqClosed c); [intros H; left; exact H|].
    destruct (Sse.at_stage c); simpl; intros H; left; try exact H.
    destruct H as [t' H]. apply lookup_delete_Some in H as [_ H]. eexists. exact H.
  - intros H. left. exact H.
Qed.

Lemma registered_run (sid : string) (es : list Sse.event) (w : Sse.world) :
  is_Some (Sse.activeConnections (fst (Sse.run secret w es)) !! sid) ->
  is_Some (Sse.activeConnections w !! sid) \/ sid ∈ Sse.issued secret es.
Proof.
  revert w. induction es as [|e es IH]; intros w H; [left; exact H|].
  rewrite fst_run_cons in H. rewrite (issued_cons secret e es).
  destruct (IH _ H) as [H1|H1].
  - destruct (registered_step sid w e H1) as [H2|H2]; [left; exact H2|].
    right. apply elem_of_app. left. exact H2.
  - right. apply elem_of_app. right. exact H1.
Qed.

End Origin.

(** X21: no session is ever created implicitly: along every run of the
    server, each identifier in the registry was generated by the
    transport constructed for an authenticated GET /mcp-sse of that
    run. *)
Theorem registered_identifiers_were_issued
    (secret : string) (es : list Sse.event) (sid : string) (t : nat) :
  Sse.activeConnections (fst (Sse.run secret Sse.init es)) !! sid = Some t ->
  sid ∈ Sse.issued secret es.
Proof.
  intros H.
  destruct (registered_run secret sid es Sse.init) as [[t' H']|H']; [eexists; exact H| |exact H'].
  simpl in H'. rewrite lookup_empty in H'. discriminate.
Qed.

Lemma registered_identifiers_were_issued_witness :
  "id-2" ∈ Sse.issued Fixture.secret
    [ Sse.Incoming (Fixture.sse None) "id-1";
      Sse.Incoming (Fixture.post (Some "Bearer s3cret") [("sessionId", "id-9")]) "id-3";
      Sse.Incoming (Fixture.sse (Some "Bearer s3cret")) "id-2" ].
Proof.
  apply (registered_identifiers_were_issued Fixture.secret
           [ Sse.Incoming (Fixture.sse None) "id-1";
             Sse.Incoming (Fixture.post (Some "Bearer s3cret") [("sessionId", "id-9")]) "id-3";
             Sse.Incoming (Fixture.sse (Some "Bearer s3cret")) "id-2" ] "id-2" 0%nat).
  vm_compute. reflexivity.
Defined.

(** * The discovery routes and the body parser *)

(** X22: behind the gate, GET /api/tools answers 200 with one entry per
    tool of the list, in list order, made of the name, the description
    and the schema (no handler); the server without a gate has no such
    route and leaves the request to the framework's 404. *)
Theorem tool_list_route
    (secret version : string) (tools : list ToolDefinition)
    (handlers : string -> option ToolHandler) (req : Express.Request) (b : Js.value) :
  Express.isGet (Express.method req) = true ->
  Express.path req = ["api"; "tools"] ->
  Express.body req = inl b ->
  (snd (Express.authenticateToken secret req) = Express.Next ->
   Express.app secret version tools handlers req =
     ([], {| Express.statusCode := 200;
             Express.payload :=
               Js.VArr (map (fun tool =>
                 Js.VObj [ ("name", Js.VStr (name tool));
                           ("description", Js.VStr (description tool));
                           ("inputSchema", Zod.toJSON (inputSchema tool)) ]) tools) |})) /\
  Express.openApp version tools handlers req =
    ([], {| Express.statusCode := 404;
            Express.payload :=
              Js.VStr ("Cannot " +:+ Express.method req +:+ " /api/tools") |}).
Proof.
  intros Hget Hp Hb. split.
  - intros Hauth. unfold Express.app.
    rewrite Hb, (authenticateToken_accepts secret req Hauth).
    unfold Express.routeRoot, Express.underApi, Express.protectedRoutes,
      Express.routeStatus, Express.routeTools.
    rewrite Hp, Hget. reflexivity.
  - unfold Express.openApp. rewrite Hb.
    unfold Express.routeRoot, Express.routeStatus, Express.routeExecute, Express.orElse,
      Express.finish, Express.notFound.
    rewrite Hp, Hget. reflexivity.
Qed.

Lemma tool_list_route_witness :
  Express.statusCode
    (snd (Express.openApp "0.1.1" Fixture.tools (Fixture.handlers Fixture.plainFailure)
            {| Express.method := "GET"; Express.path := ["api"; "tools"];
               Express.authorization := Some "Bearer s3cret";
               Express.body := inl (Js.VObj []);
               Express.now := "2025-01-01T00:00:00.000Z" |})) = 404%Z.
Proof.
  rewrite (proj2 (tool_list_route Fixture.secret "0.1.1" Fixture.tools
                    (Fixture.handlers Fixture.plainFailure)
                    {| Express.method := "GET"; Express.path := ["api"; "tools"];
                       Express.authorization := Some "Bearer s3cret";
                       Express.body := inl (Js.VObj []);
                       Express.now := "2025-01-01T00:00:00.000Z" |}
                    (Js.VObj []) eq_refl eq_refl eq_refl)).
  reflexivity.
Defined.

(** X23: the JSON body parser runs before the gate and before every
    route: when it rejects the body, the error middleware answers, on
    any path and whatever the credential, and no handler is called; the
    status is the error's numeric status when that is a status code
    (from 100 to 999), and 500 without one. *)
Theorem rejected_body_precedes_gate
    (secret version : string) (tools : list ToolDefinition)
    (handlers : string -> option ToolHandler)
    (req : Express.Request) (err : Js.thrown) (auth : option string) :
  Express.body req = inr err ->
  let reply := Express.app secret version tools handlers (Express.withAuthorization auth req) in
  reply = Express.app secret version tools handlers req /\
  Express.statusCode (snd reply) =
    match Js.status err with
    | Js.VNum n => if (100 <=? n)%Z && (n <=? 999)%Z then n else 500%Z
    | _ => 500%Z
    end /\
  Express.invocations (fst reply) = 0.
Proof.
  intros Hb reply. unfold reply, Express.app. simpl. rewrite Hb.
  split; [reflexivity|]. split; [|reflexivity].
  unfold Express.errorMiddleware, Express.validStatus. simpl.
  destruct (Js.status err) as [| | |n| | |]; try reflexivity.
  destruct ((100 <=? n)%Z && (n <=? 999)%Z); reflexivity.
Qed.

Lemma rejected_body_precedes_gate_witness :
  Express.statusCode
    (snd (Express.app Fixture.secret "0.1.1" Fixture.tools
            (Fixture.handlers Fixture.plainFailure)
            (Express.withAuthorization None
               {| Express.method := "POST";
                  Express.path := ["api"; "tools"; "run_sql"; "execute"];
                  Express.authorization := Some "Bearer s3cret";
                  Express.body :=
                    inr {| Js.instanceofError := true; Js.status := Js.VNum 400;
                           Js.message := "Unexpected token" |};
                  Express.now := "2025-01-01T00:00:00.000Z" |}))) = 400%Z.
Proof.
  apply (proj1 (proj2 (rejected_body_precedes_gate Fixture.secret "0.1.1" Fixture.tools
           (Fixture.handlers Fixture.plainFailure)
           {| Express.method := "POST";
              Express.path := ["api"; "tools"; "run_sql"; "execute"];
              Express.authorization := Some "Bearer s3cret";
              Express.body :=
                inr {| Js.instanceofError := true; Js.status := Js.VNum 400;
                       Js.message := "Unexpected token" |};
              Express.now := "2025-01-01T00:00:00.000Z" |}
           {| Js.instanceofError := true; Js.status := Js.VNum 400;
              Js.message := "Unexpected token" |} None eq_refl))).
Defined.
